(** * Protein-Api: a shallow embedding of [api.py]

    The script chains three fetch stages (UniProt protein records, Ensembl
    cross references, Ensembl gene annotations), outer-joins the two
    resulting tables and writes the join to a spreadsheet.

    Python values are embedded as the inductive [pyval]; the [requests]
    calls are answered by an oracle [net]; data frames live in a heap so
    that the in-place column assignment of [get_ensembl_gene_ids] is
    visible; exceptions, [sys.exit], printing and the output file are
    threaded through a state-and-exception monad. *)

From stdpp Require Import gmap strings list.
From Stdlib Require Import ZArith Ascii.

Set Warnings "-register-all".

Local Open Scope string_scope.
Local Open Scope list_scope.
Local Open Scope Z_scope.

(** ** Python values *)

(** What [response.json()] can produce, plus pandas' missing-value marker.
    A float is kept as the text of its literal: the program never computes
    with one.  A dict is its list of items, in insertion order, with the
    keys pairwise distinct as in Python. *)
Inductive pyval : Type :=
| PNone
| PNaN
| PBool (b : bool)
| PInt (n : Z)
| PFloat (literal : string)
| PStr (s : string)
| PList (xs : list pyval)
| PDict (items : list (string * pyval)).

(** A row under construction is a Python dict literal. *)
Definition pydict : Type := list (string * pyval).

(** ** Exceptions *)

(** [SystemExit] derives from [BaseException] only; everything else here
    derives from [Exception].  [RequestFailure] stands for the exceptions
    of [requests] other than [HTTPError] (connection errors, time-outs,
    a body that is not JSON). *)
Inductive pyexc : Type :=
| HTTPError (status : Z)
| RequestFailure (detail : string)
| KeyError
| IndexError
| TypeError
| AttributeError
| ValueError
| SystemExit (code : option Z).

Definition is_Exception (e : pyexc) : bool :=
  match e with SystemExit _ => false | _ => true end.

Definition is_HTTPError (e : pyexc) : bool :=
  match e with HTTPError _ => true | _ => false end.

(** The result of evaluating a pure expression that may raise. *)
Inductive outcome (A : Type) : Type :=
| Ret (a : A)
| Raise (e : pyexc).
Arguments Ret {A} a.
Arguments Raise {A} e.

Definition obind {A B} (o : outcome A) (k : A -> outcome B) : outcome B :=
  match o with Ret a => k a | Raise e => Raise e end.

(** ** Subscripting: [container[key]] *)

Fixpoint assoc (k : string) (items : pydict) : option pyval :=
  match items with
  | [] => None
  | (k', v) :: rest => if String.eqb k k' then Some v else assoc k rest
  end.

(** Python's sequence index: a negative index counts from the end. *)
Definition seq_index (len : nat) (i : Z) : option nat :=
  if (0 <=? i) && (i <? Z.of_nat len) then Some (Z.to_nat i)
  else if (i <? 0) && (0 <=? Z.of_nat len + i) then Some (Z.to_nat (Z.of_nat len + i))
  else None.

(** An [int] usable as an index; [bool] is a subclass of [int]. *)
Definition as_index (key : pyval) : option Z :=
  match key with
  | PInt i => Some i
  | PBool b => Some (if b then 1 else 0)
  | _ => None
  end.

Definition py_getitem (container key : pyval) : outcome pyval :=
  match container with
  | PDict items =>
      match key with
      | PStr k => match assoc k items with Some v => Ret v | None => Raise KeyError end
      | PList _ | PDict _ => Raise TypeError
      | _ => Raise KeyError
      end
  | PList xs =>
      match as_index key with
      | Some i =>
          match seq_index (List.length xs) i with
          | Some n => match xs !! n with Some v => Ret v | None => Raise IndexError end
          | None => Raise IndexError
          end
      | None => Raise TypeError
      end
  | PStr s =>
      match as_index key with
      | Some i =>
          match seq_index (String.length s) i with
          | Some n =>
              match String.get n s with
              | Some c => Ret (PStr (String c EmptyString))
              | None => Raise IndexError
              end
          | None => Raise IndexError
          end
      | None => Raise TypeError
      end
  | _ => Raise TypeError
  end.

(** One step of a subscript chain such as [j["gene"][0]["name"]]. *)
Inductive subscript : Type :=
| Key (k : string)
| Idx (i : Z).

Definition subscript_val (s : subscript) : pyval :=
  match s with Key k => PStr k | Idx i => PInt i end.

(** ** [str.lower] *)

(** Strings are taken to hold ASCII text: bytes above 127 are left as they
    are. *)
Definition lower_ascii (c : ascii) : ascii :=
  let n := nat_of_ascii c in
  if ((65 <=? n) && (n <=? 90))%nat then ascii_of_nat (n + 32)%nat else c.

Fixpoint lower (s : string) : string :=
  match s with
  | EmptyString => EmptyString
  | String c rest => String (lower_ascii c) (lower rest)
  end.

(** [species.lower()]: only a [str] has the method. *)
Definition py_lower (v : pyval) : outcome string :=
  match v with
  | PStr s => Ret (lower s)
  | _ => Raise AttributeError
  end.

(** ** Data frames *)

(** A frame is its column labels and its rows; every row has one cell per
    column. *)
Record DataFrame : Type := mkDataFrame {
  columns : list string;
  rows : list (list pyval)
}.

Definition empty_frame : DataFrame := mkDataFrame [] [].

Fixpoint index_of (c : string) (cols : list string) : option nat :=
  match cols with
  | [] => None
  | c' :: rest => if String.eqb c c' then Some 0%nat else S <$> index_of c rest
  end.

Definition has_column (c : string) (df : DataFrame) : bool :=
  match index_of c (columns df) with Some _ => true | None => false end.

Definition cell (i : nat) (row : list pyval) : pyval := default PNaN (row !! i).

(** Labels of a list of dicts in order of first appearance. *)
Fixpoint add_labels (seen : list string) (ks : list string) : list string :=
  match ks with
  | [] => seen
  | k :: rest =>
      match index_of k seen with
      | Some _ => add_labels seen rest
      | None => add_labels (seen ++ [k]) rest
      end
  end.

Definition labels_of (data : list pydict) : list string :=
  fold_left (fun seen d => add_labels seen (map fst d)) data [].

(** [pd.DataFrame(data)] for a list of dicts: a key missing from a dict
    gives a NaN cell. *)
Definition frame_of_dicts (data : list pydict) : DataFrame :=
  let cols := labels_of data in
  mkDataFrame cols (map (fun d => map (fun c => default PNaN (assoc c d)) cols) data).

(** [df[c]] read as a column. *)
Definition frame_column (c : string) (df : DataFrame) : outcome (list pyval) :=
  match index_of c (columns df) with
  | Some i => Ret (map (cell i) (rows df))
  | None => Raise KeyError
  end.

(** [df[c] = values] for a list.  A frame without rows takes its length
    from a non-empty list; otherwise the lengths must agree.  An existing
    column is overwritten where it stands, a new one is added last. *)
Definition frame_assign (c : string) (values : list pyval) (df : DataFrame)
  : outcome DataFrame :=
  let base :=
    match rows df, values with
    | [], _ :: _ => map (fun _ => map (fun _ => PNaN) (columns df)) values
    | rs, _ => rs
    end in
  if negb (List.length values =? List.length base)%nat then Raise ValueError
  else
    match index_of c (columns df) with
    | Some i =>
        Ret (mkDataFrame (columns df)
               (zip_with (fun row v => <[i := v]> row) base values))
    | None =>
        Ret (mkDataFrame (columns df ++ [c])
               (zip_with (fun row v => row ++ [v]) base values))
    end.

(** [container[k1][k2]...], evaluated left to right. *)
Fixpoint subscripts (v : pyval) (path : list subscript) : outcome pyval :=
  match path with
  | [] => Ret v
  | s :: rest => obind (py_getitem v (subscript_val s)) (fun v' => subscripts v' rest)
  end.

(** ** The outside world *)

(** The three requests the script sends.  The URL and the headers are fixed
    by the constructor; the arguments are the values interpolated into the
    URL, or sent as the JSON body. *)
Inductive request : Type :=
| GetProtein (accession : string)
| GetXrefsSymbol (species : string) (gene : pyval)
| PostLookupId (ids : list pyval).

(** What comes back: no response at all ([requests] raises), or a response
    with its status code and its body, when the body parses as JSON. *)
Inductive reply : Type :=
| NoReply (detail : string)
| Reply (status : Z) (body : option pyval).

(** A line on standard output: fixed text, or an error report naming the
    values it is about and the exception. *)
Inductive out_line : Type :=
| Text (s : string)
| Report (what : string) (subject : list pyval) (err : pyexc).

(** References to frames: positions in the heap. *)
Definition ref : Type := nat.

Record world : Type := mkWorld {
  sent : list request;
  stdout : list out_line;
  heap : list DataFrame;
  fs : gmap string DataFrame
}.

Definition initial_world (files : gmap string DataFrame) : world :=
  mkWorld [] [] [] files.

(** ** A monad for state, exceptions and exit *)

Definition M (A : Type) : Type := world -> outcome A * world.

#[global] Instance M_ret : MRet M := fun A a w => (Ret a, w).

#[global] Instance M_bind : MBind M := fun A B k m w =>
  match m w with
  | (Ret a, w') => k a w'
  | (Raise e, w') => (Raise e, w')
  end.

Definition raise {A} (e : pyexc) : M A := fun w => (Raise e, w).

Definition lift {A} (o : outcome A) : M A := fun w => (o, w).

(** [try: body except Exception as err: handler(err)].  An exception that
    is not an [Exception] passes through. *)
Definition try_except {A} (body : M A) (handler : pyexc -> M A) : M A := fun w =>
  match body w with
  | (Ret a, w') => (Ret a, w')
  | (Raise e, w') => if is_Exception e then handler e w' else (Raise e, w')
  end.

(** [for x in xs: acc = body(acc, x)]. *)
Fixpoint for_each {A S} (xs : list A) (body : S -> A -> M S) (acc : S) : M S :=
  match xs with
  | [] => mret acc
  | x :: rest => acc' ← body acc x; for_each rest body acc'
  end.

Definition print (l : out_line) : M unit := fun w =>
  (Ret tt, mkWorld (sent w) (stdout w ++ [l]) (heap w) (fs w)).

(** [sys.exit(code)]; [sys.exit()] is [sys_exit None]. *)
Definition sys_exit {A} (code : option Z) : M A := raise (SystemExit code).

(** The exit status of the interpreter: 0 when the script runs to its end
    and for [SystemExit] without a code, 1 for an uncaught exception. *)
Definition exit_status {A} (o : outcome A) : Z :=
  match o with
  | Ret _ => 0
  | Raise (SystemExit None) => 0
  | Raise (SystemExit (Some n)) => n
  | Raise _ => 1
  end.

(** *** Frames on the heap *)

Definition new_frame (df : DataFrame) : M ref := fun w =>
  (Ret (List.length (heap w)), mkWorld (sent w) (stdout w) (heap w ++ [df]) (fs w)).

(** References come from [new_frame] only, so one outside the heap does not
    occur; it reads as an empty frame. *)
Definition deref (r : ref) (w : world) : DataFrame := default empty_frame (heap w !! r).

(** [df[c]] *)
Definition frame_getitem (r : ref) (c : string) : M (list pyval) := fun w =>
  (frame_column c (deref r w), w).

(** [df[c] = values]: the frame behind [r] is replaced where it is. *)
Definition frame_setitem (r : ref) (c : string) (values : list pyval) : M unit := fun w =>
  match frame_assign c values (deref r w) with
  | Ret df' => (Ret tt, mkWorld (sent w) (stdout w) (<[r := df']> (heap w)) (fs w))
  | Raise e => (Raise e, w)
  end.

(** [df.to_excel(path, index=False)]: the file at [path] is created or
    overwritten with the frame; writing is taken to succeed. *)
Definition to_excel (r : ref) (path : string) : M unit := fun w =>
  (Ret tt, mkWorld (sent w) (stdout w) (heap w) (<[path := deref r w]> (fs w))).

(** ** Column labels and messages of the script *)

Definition col_accession : string := "Protein Accession".
Definition col_name : string := "Protein Name".
Definition col_gene : string := "Gene".
Definition col_scientific : string := "Organism (Scientific)".
Definition col_common : string := "Organism (Common)".
Definition col_weight : string := "Molecular Weight (Da)".
Definition col_ensembl : string := "Ensembl Gene ID".
Definition col_description : string := "Description".
Definition col_region : string := "Seq Region Name".

Definition still_processed : out_line := Text "Other accessions will still be processed".
Definition terminating : out_line := Text "Terminating program".

(** ** Joining two frames *)

Definition is_null (v : pyval) : bool :=
  match v with PNone | PNaN => true | _ => false end.

Definition hashable (v : pyval) : bool :=
  match v with PList _ | PDict _ => false | _ => true end.

(** Equality of join keys, for hashable values.  Missing keys match one
    another. *)
Definition key_eqb (a b : pyval) : bool :=
  match a, b with
  | PBool x, PBool y => Bool.eqb x y
  | PInt x, PInt y => (x =? y)%Z
  | PFloat x, PFloat y => String.eqb x y
  | PStr x, PStr y => String.eqb x y
  | _, _ => is_null a && is_null b
  end.

(** A null cell for each of the given columns. *)
Definition nulls (cols : list string) : list pyval := map (fun _ => PNaN) cols.

(** A list without its element at position [i]. *)
Definition drop_at {A} (i : nat) (l : list A) : list A :=
  take i l ++ drop (S i) l.

(** Columns present on both sides, the key apart, get a suffix. *)
Definition suffixed (sfx : string) (on : string) (others : list string) (c : string)
  : string :=
  if String.eqb c on then c
  else match index_of c others with Some _ => c ++ sfx | None => c end.

(** Modelled from the spec: [DataFrame.merge(right, how="outer", on=key)]
    belongs to pandas and is not part of the repository's source.  Section
    4.4 and the glossary describe it: rows of either table are kept, a row
    without a partner gets nulls in the other table's columns.  The model
    puts the left rows first, each with its partners in the right table, and
    the right rows without a partner after them; the order of the rows in
    pandas' result is not modelled.  Where the spec is silent the model
    follows pandas: both tables must have the key column ([KeyError]), the
    keys must be hashable ([TypeError]), missing keys match one another,
    and a column name the two tables share, the key apart, gets a suffix. *)
Definition merge_outer (on : string) (left right : DataFrame) : outcome DataFrame :=
  match index_of on (columns left), index_of on (columns right) with
  | Some il, Some ir =>
      if forallb (fun row => hashable (cell il row)) (rows left)
         && forallb (fun row => hashable (cell ir row)) (rows right)
      then
        let nulls_right := nulls (drop_at ir (columns right)) in
        let from_left :=
          flat_map (fun l =>
            match filter (fun r => key_eqb (cell il l) (cell ir r) = true) (rows right) with
            | [] => [l ++ nulls_right]
            | partners => map (fun r => l ++ drop_at ir r) partners
            end) (rows left) in
        let right_only :=
          filter (fun r => forallb (fun l => negb (key_eqb (cell il l) (cell ir r)))
                             (rows left) = true) (rows right) in
        let from_right :=
          map (fun r => <[il := cell ir r]> (nulls (columns left)) ++ drop_at ir r)
            right_only in
        Ret (mkDataFrame
               (map (suffixed "_x" on (columns right)) (columns left)
                ++ map (suffixed "_y" on (columns left)) (drop_at ir (columns right)))
               (from_left ++ from_right))
      else Raise TypeError
  | _, _ => Raise KeyError
  end.

(** [left.merge(right, how="outer", on=key)]: a new frame; neither argument
    is touched. *)
Definition frame_merge (left right : ref) (on : string) : M ref := fun w =>
  match merge_outer on (deref left w) (deref right w) with
  | Ret df => new_frame df w
  | Raise e => (Raise e, w)
  end.

(** ** The script *)

Section Script.

(** The services: the reply to a request, given how many requests were sent
    before it. *)
Variable net : nat -> request -> reply.

(** A response object: status code and JSON body. *)
Definition response : Type := (Z * option pyval)%type.

(** [requests.get(...)] and [requests.post(...)]. *)
Definition requests_send (rq : request) : M response := fun w =>
  let w' := mkWorld (sent w ++ [rq]) (stdout w) (heap w) (fs w) in
  match net (List.length (sent w)) rq with
  | NoReply detail => (Raise (RequestFailure detail), w')
  | Reply status body => (Ret (status, body), w')
  end.

(** A status code of the client-error or server-error class. *)
Definition error_status (status : Z) : bool :=
  ((400 <=? status) && (status <? 600))%Z.

(** [response.raise_for_status()] *)
Definition raise_for_status (r : response) : M unit :=
  if error_status (fst r) then raise (HTTPError (fst r)) else mret tt.

(** [response.json()] *)
Definition json (r : response) : M pyval :=
  match snd r with
  | Some v => mret v
  | None => raise (RequestFailure "JSONDecodeError")
  end.

(** *** Stage 1: [get_protein_information] *)

(** The dict literal [protein_info]; its values are evaluated in order. *)
Definition protein_info (accession : string) (response_json : pyval) : outcome pydict :=
  obind (subscripts response_json
           [Key "protein"; Key "recommendedName"; Key "fullName"; Key "value"]) (fun name =>
  obind (subscripts response_json [Key "gene"; Idx 0; Key "name"; Key "value"]) (fun gene =>
  obind (subscripts response_json [Key "organism"; Key "names"; Idx 0; Key "value"])
    (fun scientific =>
  obind (subscripts response_json [Key "organism"; Key "names"; Idx 1; Key "value"])
    (fun common =>
  obind (subscripts response_json [Key "sequence"; Key "mass"]) (fun mass =>
  Ret [(col_accession, PStr accession); (col_name, name); (col_gene, gene);
       (col_scientific, scientific); (col_common, common); (col_weight, mass)]))))).

(** The body of the loop: the [try] block and its two handlers. *)
Definition protein_step (data : list pydict) (accession : string) : M (list pydict) :=
  try_except
    (resp ← requests_send (GetProtein accession);
     raise_for_status resp;;
     response_json ← json resp;
     info ← lift (protein_info accession response_json);
     mret (data ++ [info]))
    (fun err =>
       (if is_HTTPError err
        then print (Report "HTTPError for acession" [PStr accession] err)
        else print (Report "Exception for acession" [PStr accession] err));;
       print still_processed;;
       mret data).

Definition get_protein_information (accessions : list string) : M ref :=
  print (Text "Getting protein information from UniProt...");;
  data ← for_each accessions protein_step [];
  new_frame (frame_of_dicts data).

(** *** Stage 2: [get_ensembl_gene_ids] *)

Definition xref_step (ensembl_ids : list pyval) (row : pyval * pyval) : M (list pyval) :=
  let '(species, gene) := row in
  try_except
    (species_lower ← lift (py_lower species);
     resp ← requests_send (GetXrefsSymbol species_lower gene);
     raise_for_status resp;;
     response_json ← json resp;
     id ← lift (subscripts response_json [Idx 0; Key "id"]);
     mret (ensembl_ids ++ [id]))
    (fun err =>
       (if is_HTTPError err
        then print (Report "HTTPError for species and gene" [species; gene] err)
        else print (Report "Exception for species and gene" [species; gene] err));;
       print still_processed;;
       mret ensembl_ids).

Definition get_ensembl_gene_ids (df : ref) : M ref :=
  print (Text "Getting Ensembl gene IDs...");;
  species ← frame_getitem df col_scientific;
  genes ← frame_getitem df col_gene;
  ensembl_ids ← for_each (zip species genes) xref_step [];
  frame_setitem df col_ensembl ensembl_ids;;
  mret df.

(** *** Stage 3: [get_gene_data] *)

(** The dict literal [gene_data]. *)
Definition gene_data (response_json ensembl_id : pyval) : outcome pydict :=
  obind (obind (py_getitem response_json ensembl_id)
           (fun entry => py_getitem entry (PStr "description"))) (fun description =>
  obind (obind (py_getitem response_json ensembl_id)
           (fun entry => py_getitem entry (PStr "seq_region_name"))) (fun region =>
  Ret [(col_ensembl, ensembl_id); (col_description, description);
       (col_region, region)])).

Definition gene_step (response_json : pyval) (data : list pydict) (ensembl_id : pyval)
  : M (list pydict) :=
  row ← lift (gene_data response_json ensembl_id);
  mret (data ++ [row]).

Definition get_gene_data (ensembl_ids : list pyval) : M ref :=
  print (Text "Getting gene information from Ensembl...");;
  data ← try_except
    (resp ← requests_send (PostLookupId ensembl_ids);
     raise_for_status resp;;
     response_json ← json resp;
     for_each ensembl_ids (gene_step response_json) [])
    (fun err =>
       (if is_HTTPError err
        then print (Report "HTTPError when trying to fetch ensembl gene data" [] err)
        else print (Report "Exception when trying to fetch ensembl gene data" [] err));;
       print terminating;;
       sys_exit None);
  new_frame (frame_of_dicts data).

(** *** The [__main__] block *)

Definition accessions : list string := ["P12345"; "Q8N726"; "O00255"].

Definition outfile : string := "protein_gene_analysis.xlsx".

Definition main : M unit :=
  prot_inf_df ← get_protein_information accessions;
  prot_inf_df ← get_ensembl_gene_ids prot_inf_df;
  ids ← frame_getitem prot_inf_df col_ensembl;
  gene_inf_df ← get_gene_data ids;
  result ← frame_merge prot_inf_df gene_inf_df col_ensembl;
  print (Text ("Writing results to " ++ outfile));;
  to_excel result outfile.

(** Running the script with the given files on disk: the exit status and
    the world it leaves. *)
Definition run (files : gmap string DataFrame) : Z * world :=
  let '(o, w) := main (initial_world files) in (exit_status o, w).

End Script.

(** ** Vocabulary of the statements *)

(** [v] is a dict that has [v'] under the key [k]. *)
Definition field (k : string) (v v' : pyval) : Prop :=
  exists items, v = PDict items /\ assoc k items = Some v'.

(** [v] is a list that has [v'] at position [i]. *)
Definition entry (i : nat) (v v' : pyval) : Prop :=
  exists xs, v = PList xs /\ xs !! i = Some v'.

(** The results that did not raise, in order. *)
Definition keep {A} (o : outcome A) : list A :=
  match o with Ret a => [a] | Raise _ => [] end.

(** The result did not raise. *)
Definition is_ret {A} (o : outcome A) : bool :=
  match o with Ret _ => true | Raise _ => false end.

(** What the [try] block of one request makes of the reply, up to the
    parsed body. *)
Definition body_of (rp : reply) : outcome pyval :=
  match rp with
  | NoReply detail => Raise (RequestFailure detail)
  | Reply status body =>
      if error_status status then Raise (HTTPError status)
      else match body with
           | Some v => Ret v
           | None => Raise (RequestFailure "JSONDecodeError")
           end
  end.

(** Processing one accession, given the reply of the protein service. *)
Definition resolve (accession : string) (rp : reply) : outcome pydict :=
  obind (body_of rp) (protein_info accession).

(** The columns of a table of protein records, in order. *)
Definition protein_labels : list string :=
  [col_accession; col_name; col_gene; col_scientific; col_common; col_weight].

(** The outcome of processing each accession of a list, when [n] requests
    were sent before the first. *)
Definition protein_attempts (net : nat -> request -> reply) (n : nat)
  (accs : list string) : list (outcome pydict) :=
  imap (fun i a => resolve a (net (n + i)%nat (GetProtein a))) accs.

(** The records of the accessions that resolved, in order. *)
Definition resolved (net : nat -> request -> reply) (n : nat) (accs : list string)
  : list pydict :=
  flat_map keep (protein_attempts net n accs).

(** Processing one row of stage 2, given the reply of the cross-reference
    service. *)
Definition xref_attempt (rp : reply) : outcome pyval :=
  obind (body_of rp) (fun j => subscripts j [Idx 0; Key "id"]).

(** The identifier of the first candidate of a reply: the reply has no error
    status and its body is a list whose first entry has an [id]. *)
Definition first_id (rp : reply) : option pyval :=
  match rp with
  | Reply status (Some (PList (PDict candidate :: _))) =>
      if error_status status then None else assoc "id" candidate
  | _ => None
  end.

(** The cross-reference lookups for a table: one per row, keyed by the
    lower-cased scientific name and the gene symbol. *)
Definition lookups (names : list string) (genes : list pyval) : list request :=
  zip_with (fun s g => GetXrefsSymbol (lower s) g) names genes.

(** The replies to a run of requests, the first of which is request number
    [n]. *)
Definition replies (net : nat -> request -> reply) (n : nat) (rqs : list request)
  : list reply :=
  imap (fun i rq => net (n + i)%nat rq) rqs.

(** All results, or the first exception. *)
Fixpoint collect {A} (l : list (outcome A)) : outcome (list A) :=
  match l with
  | [] => Ret []
  | o :: rest => obind o (fun a => obind (collect rest) (fun more => Ret (a :: more)))
  end.

(** What the [try] block of stage 3 makes of the reply of the annotation
    service. *)
Definition batch (ids : list pyval) (rp : reply) : outcome (list pydict) :=
  obind (body_of rp) (fun j => collect (map (gene_data j) ids)).

(** The response [j] has an entry under the identifier [id], and the entry
    is a dict with a description and a region name. *)
Definition annotation (j id description region : pyval) : Prop :=
  exists e, py_getitem j id = Ret e /\
            field "description" e description /\
            field "seq_region_name" e region.

(** The response [j] annotates the identifier [id]. *)
Definition annotated (j id : pyval) : Prop :=
  exists description region, annotation j id description region.

(** The columns of a table of gene annotations, in order. *)
Definition gene_labels : list string := [col_ensembl; col_description; col_region].

(** ** Sample data *)

(** A protein record as the protein service sends it, cut down to the
    fields the script reads. *)
Definition sample_protein (name gene scientific common : string) (mass : Z) : pyval :=
  PDict
    [("protein",
      PDict [("recommendedName", PDict [("fullName", PDict [("value", PStr name)])])]);
     ("gene", PList [PDict [("name", PDict [("value", PStr gene)])]]);
     ("organism",
      PDict [("names",
              PList [PDict [("type", PStr "scientific"); ("value", PStr scientific)];
                     PDict [("type", PStr "common"); ("value", PStr common)]])]);
     ("sequence", PDict [("mass", PInt mass)])].

(** Replies of the services for a sample run: the protein service does not
    know the accession Q8N726; the cross-reference service answers with one
    candidate per gene; the annotation service describes every identifier
    it is asked about. *)
Definition sample_net (n : nat) (rq : request) : reply :=
  match rq with
  | GetProtein accession =>
      if String.eqb accession "Q8N726" then Reply 404 None
      else Reply 200 (Some (sample_protein ("Protein " ++ accession) ("G" ++ accession)
                              "Homo sapiens" "Human" 47409))
  | GetXrefsSymbol species gene =>
      match gene with
      | PStr g => Reply 200 (Some (PList [PDict [("id", PStr ("ENSG" ++ g));
                                                 ("type", PStr "gene")]]))
      | _ => Reply 400 None
      end
  | PostLookupId ids =>
      Reply 200
        (Some (PDict (flat_map (fun id =>
                 match id with
                 | PStr s => [(s, PDict [("description", PStr ("gene " ++ s));
                                         ("seq_region_name", PStr "11")])]
                 | _ => []
                 end) ids)))
  end.

(** The same services, with the annotation service out of order. *)
Definition lookup_down_net (n : nat) (rq : request) : reply :=
  match rq with
  | PostLookupId _ => Reply 500 None
  | _ => sample_net n rq
  end.

(** The same services, with the cross-reference service rejecting every
    lookup. *)
Definition xrefs_down_net (n : nat) (rq : request) : reply :=
  match rq with
  | GetXrefsSymbol _ _ => Reply 404 None
  | _ => sample_net n rq
  end.

(** The annotation service answers, and knows none of the identifiers. *)
Definition knows_nothing_net (n : nat) (rq : request) : reply :=
  match rq with
  | PostLookupId _ => Reply 200 (Some (PDict []))
  | _ => sample_net n rq
  end.

(** The annotation service answers with an entry for every identifier, but
    the entries carry no region name. *)
Definition no_region_net (n : nat) (rq : request) : reply :=
  match rq with
  | PostLookupId ids =>
      Reply 200
        (Some (PDict (flat_map (fun id =>
                 match id with
                 | PStr s => [(s, PDict [("description", PStr ("gene " ++ s))])]
                 | _ => []
                 end) ids)))
  | _ => sample_net n rq
  end.

(** A table of protein records with their cross references, and a table of
    annotations: the identifiers are A, B, C on one side and B, C, D on the
    other. *)
Definition crossref_row (accession id : string) : list pyval :=
  [PStr accession; PStr ("Protein " ++ accession); PStr ("G" ++ accession);
   PStr "Homo sapiens"; PStr "Human"; PInt 47409; PStr id].

Definition annotation_row (id : string) : list pyval :=
  [PStr id; PStr ("gene " ++ id); PStr "11"].

Definition crossref_ABC : DataFrame :=
  mkDataFrame (protein_labels ++ [col_ensembl])
    [crossref_row "P1" "A"; crossref_row "P2" "B"; crossref_row "P3" "C"].

Definition annotation_BCD : DataFrame :=
  mkDataFrame gene_labels [annotation_row "B"; annotation_row "C"; annotation_row "D"].

(** A table of stage 1 with a single protein. *)
Definition one_protein : DataFrame :=
  mkDataFrame protein_labels
    [[PStr "P04637"; PStr "Cellular tumor antigen p53"; PStr "TP53";
      PStr "Homo sapiens"; PStr "Human"; PInt 43653]].

(** The world in which the only frame is [one_protein]. *)
Definition one_protein_world : world := mkWorld [] [] [one_protein] ∅.

(** A sample run with the annotation service out of order: the worlds after
    stage 1 and after stage 2, and the identifiers handed to stage 3. *)
Definition down_w1 : world :=
  snd (get_protein_information lookup_down_net accessions (initial_world ∅)).

Definition down_w2 : world := snd (get_ensembl_gene_ids lookup_down_net 0%nat down_w1).

Definition down_ids : list pyval := [PStr "ENSGGP12345"; PStr "ENSGGO00255"].

(** The same for a sample run with all services up. *)
Definition sample_w1 : world :=
  snd (get_protein_information sample_net accessions (initial_world ∅)).

Definition sample_w2 : world := snd (get_ensembl_gene_ids sample_net 0%nat sample_w1).

Definition sample_ids : list pyval := [PStr "ENSG00000141510"; PStr "ENSG00000012048"].

(** The body of the annotation service's reply to [sample_ids]. *)
Definition sample_annotations : pyval :=
  PDict [("ENSG00000141510",
          PDict [("description", PStr "gene ENSG00000141510");
                 ("seq_region_name", PStr "11")]);
         ("ENSG00000012048",
          PDict [("description", PStr "gene ENSG00000012048");
                 ("seq_region_name", PStr "11")])].

(** ** Vocabulary of the further properties *)

(** Every row of the frame has one cell per column. *)
Definition well_formed (df : DataFrame) : Prop :=
  Forall (fun row => List.length row = List.length (columns df)) (rows df).

(** The row's organism cell is not a string: [species.lower()] raises. *)
Definition unnamed (row : pyval * pyval) : Prop :=
  py_lower (fst row) = Raise AttributeError.

(** The protein service is out of order. *)
Definition protein_down_net (n : nat) (rq : request) : reply :=
  match rq with
  | GetProtein _ => Reply 503 None
  | _ => sample_net n rq
  end.

(** The annotation service answers null for the identifier it is asked
    about, as it does for an identifier it does not know. *)
Definition null_entry_net (n : nat) (rq : request) : reply :=
  match rq with
  | PostLookupId _ => Reply 200 (Some (PDict [("ENSG00000000000", PNone)]))
  | _ => sample_net n rq
  end.

(** A protein record whose organism has a scientific name only. *)
Definition single_name_protein : pyval :=
  PDict
    [("protein",
      PDict [("recommendedName",
              PDict [("fullName", PDict [("value", PStr "Beta-galactosidase")])])]);
     ("gene", PList [PDict [("name", PDict [("value", PStr "lacZ")])]]);
     ("organism",
      PDict [("names",
              PList [PDict [("type", PStr "scientific");
                            ("value", PStr "Escherichia coli (strain K12)")]])]);
     ("sequence", PDict [("mass", PInt 116483)])].

(** The items of a protein record without a gene. *)
Definition geneless_items : list (string * pyval) :=
  [("protein",
    PDict [("recommendedName",
            PDict [("fullName", PDict [("value", PStr "Uncharacterized protein")])])]);
   ("organism",
    PDict [("names",
            PList [PDict [("type", PStr "scientific"); ("value", PStr "Homo sapiens")];
                   PDict [("type", PStr "common"); ("value", PStr "Human")]])]);
   ("sequence", PDict [("mass", PInt 12345)])].

(** The world whose only frame is a one-row table with a missing organism
    name. *)
Definition nameless_world : world :=
  mkWorld [] []
    [mkDataFrame protein_labels
       [[PStr "P04637"; PStr "Cellular tumor antigen p53"; PStr "TP53";
         PNaN; PStr "Human"; PInt 43653]]] ∅.

(** The world whose only frame is [crossref_ABC], a table that has its
    identifier column. *)
Definition crossref_world : world := mkWorld [] [] [crossref_ABC] ∅.

(** ** Vocabulary of the revised statements *)

(** The lookup for a row of the table: a row whose organism cell is a
    string is looked up under the lower-cased name and its gene symbol; any
    other row has no lookup. *)
Definition named_lookup (row : pyval * pyval) : option request :=
  match fst row with
  | PStr s => Some (GetXrefsSymbol (lower s) (snd row))
  | _ => None
  end.

(** The lookups for a table, given as its rows of organism and gene cells:
    one per row that has one, in table order. *)
Definition named_lookups (table : list (pyval * pyval)) : list request :=
  omap named_lookup table.

(** The identifiers stage 2 collects on a table, when [n] requests were
    sent before: the first identifiers of the replies to its lookups. *)
Definition collected (net : nat -> request -> reply) (n : nat)
  (table : list (pyval * pyval)) : list pyval :=
  omap first_id (replies net n (named_lookups table)).

(** The sample run with all services up, continued: the identifiers handed
    to stage 3 and the world after it. *)
Definition sample_run_ids : list pyval := [PStr "ENSGGP12345"; PStr "ENSGGO00255"].

Definition sample_w3 : world := snd (get_gene_data sample_net sample_run_ids sample_w2).

(** * Properties *)

(** ** Labels, dicts and frames *)

Lemma index_of_None (c : string) (cols : list string) :
  index_of c cols = None <-> c ∉ cols.
Proof.
  induction cols as [|c' rest IH]; simpl.
  - split; [intros _; apply not_elem_of_nil | done].
  - destruct (String.eqb_spec c c') as [->|Hne].
    + split; [done | intros H; exfalso; apply H; left].
    + rewrite not_elem_of_cons. destruct (index_of c rest); simpl.
      * split; [done | intros [_ H]; apply IH in H; done].
      * split; [intros _; split; [done | by apply IH] | done].
Qed.

Lemma add_labels_known (seen ks : list string) :
  (forall k, k ∈ ks -> k ∈ seen) -> add_labels seen ks = seen.
Proof.
  induction ks as [|k rest IH]; simpl; intros Hin; [done |].
  destruct (index_of k seen) eqn:E.
  - apply IH. intros k' Hk'. apply Hin. by right.
  - apply index_of_None in E. exfalso. apply E, Hin. left.
Qed.

Lemma add_labels_fresh (seen ks : list string) :
  NoDup (seen ++ ks) -> add_labels seen ks = seen ++ ks.
Proof.
  revert seen. induction ks as [|k rest IH]; intros seen Hnd; simpl.
  - by rewrite app_nil_r.
  - assert (Hk : k ∉ seen).
    { apply NoDup_app in Hnd as (_ & Hdis & _). intros Hin.
      apply (Hdis k Hin). left. }
    apply index_of_None in Hk. rewrite Hk.
    rewrite IH; rewrite <- app_assoc; done.
Qed.

Lemma labels_of_uniform (ks : list string) (data : list pydict) :
  NoDup ks -> Forall (fun d => map fst d = ks) data -> data <> [] ->
  labels_of data = ks.
Proof.
  intros Hnd Hall Hne. unfold labels_of.
  destruct data as [|d rest]; [done |]. simpl.
  apply Forall_cons in Hall as [Hd Hrest]. rewrite Hd.
  rewrite (add_labels_fresh [] ks) by done. simpl.
  clear Hd Hne d. induction rest as [|d rest IH]; simpl; [done |].
  apply Forall_cons in Hrest as [Hd Hrest]. rewrite Hd.
  rewrite add_labels_known by done. by apply IH.
Qed.

Lemma values_of_own_keys (d : pydict) :
  NoDup (map fst d) -> map (fun c => default PNaN (assoc c d)) (map fst d) = map snd d.
Proof.
  induction d as [|[k v] rest IH]; simpl; intros Hnd; [done |].
  apply NoDup_cons in Hnd as [Hk Hnd].
  rewrite String.eqb_refl. simpl. f_equal.
  rewrite <- IH by done. apply map_ext_in. intros c Hc.
  destruct (String.eqb_spec c k) as [->|Hne]; [|done].
  exfalso. apply Hk. by apply list_elem_of_In.
Qed.

(** A list of dicts that all have the keys [ks], in that order, becomes the
    frame with the columns [ks] and the dicts' values as rows. *)
Lemma frame_of_dicts_uniform (ks : list string) (data : list pydict) :
  NoDup ks -> Forall (fun d => map fst d = ks) data -> data <> [] ->
  frame_of_dicts data = mkDataFrame ks (map (map snd) data).
Proof.
  intros Hnd Hall Hne. unfold frame_of_dicts.
  rewrite (labels_of_uniform ks) by done. f_equal.
  apply map_ext_in. intros d Hd.
  rewrite Forall_forall in Hall. apply list_elem_of_In in Hd.
  specialize (Hall d Hd). rewrite <- Hall. apply values_of_own_keys.
  by rewrite Hall.
Qed.

(** ** Subscripting *)

Lemma getitem_key (v v' : pyval) (k : string) :
  py_getitem v (PStr k) = Ret v' <-> field k v v'.
Proof.
  split.
  - destruct v; simpl; try done.
    destruct (assoc k items) eqn:E; [|done]. intros [= <-]. by exists items.
  - intros (items & -> & H). simpl. by rewrite H.
Qed.

Lemma seq_index_nat (len i : nat) :
  seq_index len (Z.of_nat i) = if (i <? len)%nat then Some i else None.
Proof.
  unfold seq_index.
  destruct (Nat.ltb_spec i len).
  - replace (0 <=? Z.of_nat i)%Z with true by lia.
    replace (Z.of_nat i <? Z.of_nat len)%Z with true by lia.
    simpl. by rewrite Nat2Z.id.
  - replace (Z.of_nat i <? Z.of_nat len)%Z with false by lia.
    replace (Z.of_nat i <? 0)%Z with false by lia.
    by rewrite andb_false_r.
Qed.

(** An integer subscript that yields a dict was applied to a list. *)
Lemma getitem_index_dict (v : pyval) (i : nat) (items : pydict) :
  py_getitem v (PInt (Z.of_nat i)) = Ret (PDict items) <-> entry i v (PDict items).
Proof.
  split.
  - destruct v; simpl; try done.
    + rewrite seq_index_nat. destruct (i <? _)%nat; [|done].
      destruct (String.get i s); done.
    + rewrite seq_index_nat. destruct (i <? _)%nat; [|done].
      destruct (xs !! i) eqn:E; [|done]. intros [= ->]. by exists xs.
  - intros (xs & -> & H). simpl. rewrite seq_index_nat.
    apply lookup_lt_Some in H as Hlt.
    destruct (Nat.ltb_spec i (List.length xs)); [|lia]. by rewrite H.
Qed.

Lemma subscripts_key (v r : pyval) (k : string) (rest : list subscript) :
  subscripts v (Key k :: rest) = Ret r <->
  exists v', field k v v' /\ subscripts v' rest = Ret r.
Proof.
  simpl. split.
  - destruct (py_getitem v (PStr k)) as [v'|] eqn:E; [|done].
    intros H. exists v'. split; [by apply getitem_key | done].
  - intros (v' & Hf & H). apply getitem_key in Hf. by rewrite Hf.
Qed.

Lemma subscripts_index_key (v r : pyval) (i : nat) (k : string) (rest : list subscript) :
  subscripts v (Idx (Z.of_nat i) :: Key k :: rest) = Ret r <->
  exists v' v'', entry i v v' /\ field k v' v'' /\ subscripts v'' rest = Ret r.
Proof.
  split.
  - change (subscripts v (Idx (Z.of_nat i) :: Key k :: rest))
      with (obind (py_getitem v (PInt (Z.of_nat i)))
              (fun v' => subscripts v' (Key k :: rest))).
    destruct (py_getitem v (PInt (Z.of_nat i))) as [v'|] eqn:E; [|done].
    unfold obind. intros H. apply subscripts_key in H as (v'' & Hf & H).
    exists v', v''. split; [|done].
    destruct Hf as (items & -> & _). by apply getitem_index_dict.
  - intros (v' & v'' & He & Hf & H).
    change (subscripts v (Idx (Z.of_nat i) :: Key k :: rest))
      with (obind (py_getitem v (PInt (Z.of_nat i)))
              (fun v' => subscripts v' (Key k :: rest))).
    destruct Hf as (items & -> & Hf).
    apply getitem_index_dict in He. rewrite He. unfold obind.
    apply subscripts_key. exists v''. split; [by exists items | done].
Qed.

Lemma subscripts_nil (v r : pyval) : subscripts v [] = Ret r <-> v = r.
Proof. simpl. split; [by intros [= ->] | by intros ->]. Qed.

(** Subscripting raises ordinary exceptions only. *)
Lemma getitem_raises (v k : pyval) (e : pyexc) :
  py_getitem v k = Raise e -> is_Exception e = true.
Proof.
  destruct v; simpl; try by intros [= <-].
  - destruct (as_index k); [|by intros [= <-]].
    destruct (seq_index _ _); [|by intros [= <-]].
    destruct (String.get _ _); [done | by intros [= <-]].
  - destruct (as_index k); [|by intros [= <-]].
    destruct (seq_index _ _); [|by intros [= <-]].
    destruct (_ !! _); [done | by intros [= <-]].
  - destruct k; try by intros [= <-].
    destruct (assoc _ _); [done | by intros [= <-]].
Qed.

Lemma subscripts_raises (v : pyval) (path : list subscript) (e : pyexc) :
  subscripts v path = Raise e -> is_Exception e = true.
Proof.
  revert v. induction path as [|s rest IH]; intros v; simpl; [done |].
  destruct (py_getitem v (subscript_val s)) as [v'|e'] eqn:E; simpl.
  - apply IH.
  - intros [= <-]. by apply getitem_raises in E.
Qed.

(** ** Stage 1: the protein record *)

Lemma protein_info_raises (accession : string) (j : pyval) (e : pyexc) :
  protein_info accession j = Raise e -> is_Exception e = true.
Proof.
  unfold protein_info.
  repeat match goal with
  | |- obind (subscripts ?v ?p) _ = _ -> _ =>
      let E := fresh "E" in
      destruct (subscripts v p) eqn:E; cbn [obind];
      [| intros [= <-]; by apply subscripts_raises in E]
  end.
  done.
Qed.

Lemma protein_info_inv (accession : string) (j : pyval) (d : pydict) :
  protein_info accession j = Ret d ->
  exists name gene scientific common mass,
    subscripts j [Key "protein"; Key "recommendedName"; Key "fullName"; Key "value"]
      = Ret name /\
    subscripts j [Key "gene"; Idx 0; Key "name"; Key "value"] = Ret gene /\
    subscripts j [Key "organism"; Key "names"; Idx 0; Key "value"] = Ret scientific /\
    subscripts j [Key "organism"; Key "names"; Idx 1; Key "value"] = Ret common /\
    subscripts j [Key "sequence"; Key "mass"] = Ret mass /\
    d = [(col_accession, PStr accession); (col_name, name); (col_gene, gene);
         (col_scientific, scientific); (col_common, common); (col_weight, mass)].
Proof.
  unfold protein_info.
  destruct (subscripts j [Key "protein"; _; _; _]) as [name|]; [|done].
  destruct (subscripts j [Key "gene"; _; _; _]) as [gene|]; [|done].
  destruct (subscripts j [Key "organism"; _; Idx 0; _]) as [scientific|]; [|done].
  destruct (subscripts j [Key "organism"; _; Idx 1; _]) as [common|]; [|done].
  destruct (subscripts j [Key "sequence"; _]) as [mass|]; [|done].
  unfold obind. intros [= <-]. by exists name, gene, scientific, common, mass.
Qed.

Lemma protein_info_keys (accession : string) (j : pyval) (d : pydict) :
  protein_info accession j = Ret d -> map fst d = protein_labels.
Proof.
  intros H. apply protein_info_inv in H as (?&?&?&?&?&_&_&_&_&_&->). done.
Qed.

(** C7: the record assembled for an accession that resolved holds the
    accession, the full recommended protein name, the name of the first
    listed gene, the value of the first entry of the organism's name list as
    scientific name and the value of its second entry as common name, and
    the mass of the sequence as molecular weight. *)
Theorem protein_record_fields (accession : string) (j : pyval) (d : pydict) :
  protein_info accession j = Ret d ->
  exists name gene scientific common mass,
    d = [(col_accession, PStr accession); (col_name, name); (col_gene, gene);
         (col_scientific, scientific); (col_common, common); (col_weight, mass)] /\
    (exists p r f, field "protein" j p /\ field "recommendedName" p r /\
                   field "fullName" r f /\ field "value" f name) /\
    (exists gs g n, field "gene" j gs /\ entry 0 gs g /\
                    field "name" g n /\ field "value" n gene) /\
    (exists o ns n0 n1, field "organism" j o /\ field "names" o ns /\
                        entry 0 ns n0 /\ field "value" n0 scientific /\
                        entry 1 ns n1 /\ field "value" n1 common) /\
    (exists s, field "sequence" j s /\ field "mass" s mass).
Proof.
  intros H.
  apply protein_info_inv in H
    as (name & gene & scientific & common & mass & Hn & Hg & Hs & Hc & Hm & ->).
  exists name, gene, scientific, common, mass. split; [done |].
  apply subscripts_key in Hn as (p & Hp & Hn).
  apply subscripts_key in Hn as (r & Hr & Hn).
  apply subscripts_key in Hn as (f & Hf & Hn).
  apply subscripts_key in Hn as (name' & Hname & Hn).
  apply subscripts_nil in Hn as ->.
  apply subscripts_key in Hg as (gs & Hgs & Hg).
  apply (subscripts_index_key gs gene 0) in Hg as (g & n & Hg0 & Hgn & Hg).
  apply subscripts_key in Hg as (gene' & Hgv & Hg).
  apply subscripts_nil in Hg as ->.
  apply subscripts_key in Hs as (o & Ho & Hs).
  apply subscripts_key in Hs as (ns & Hns & Hs).
  apply (subscripts_index_key ns scientific 0) in Hs as (n0 & sv & Hn0 & Hv0 & Hs).
  apply subscripts_nil in Hs as ->.
  apply subscripts_key in Hc as (o' & Ho' & Hc).
  apply subscripts_key in Hc as (ns' & Hns' & Hc).
  apply (subscripts_index_key ns' common 1) in Hc as (n1 & cv & Hn1 & Hv1 & Hc).
  apply subscripts_nil in Hc as ->.
  apply subscripts_key in Hm as (s & Hs & Hm).
  apply subscripts_key in Hm as (mass' & Hmass & Hm).
  apply subscripts_nil in Hm as ->.
  assert (o' = o) as ->.
  { destruct Ho as (i1 & -> & H1), Ho' as (i2 & [= <-] & H2). congruence. }
  assert (ns' = ns) as ->.
  { destruct Hns as (i1 & -> & H1), Hns' as (i2 & [= <-] & H2). congruence. }
  repeat split.
  - by exists p, r, f.
  - by exists gs, g, n.
  - by exists o, ns, n0, n1.
  - by exists s.
Qed.

(** ** Stage 1: the loop *)

Section Stage1.

Variable net : nat -> request -> reply.

(** One turn of the loop: the request goes out, nothing is raised, and the
    record is appended exactly when the accession resolved. *)
Lemma protein_step_run (data : list pydict) (a : string) (w : world) :
  exists out,
    protein_step net data a w =
    (Ret (data ++ keep (resolve a (net (List.length (sent w)) (GetProtein a)))),
     mkWorld (sent w ++ [GetProtein a]) (stdout w ++ out) (heap w) (fs w)).
Proof.
  unfold protein_step, try_except, resolve, body_of, mbind, M_bind, requests_send,
    raise_for_status, json, lift, print, mret, M_ret, raise, error_status.
  destruct (net (List.length (sent w)) (GetProtein a)) as [detail|status body]; simpl.
  - eexists. by rewrite (app_nil_r data), <- app_assoc.
  - destruct ((400 <=? status)%Z && (status <? 600)%Z); simpl.
    + eexists. by rewrite (app_nil_r data), <- app_assoc.
    + destruct body as [j|]; simpl.
      * destruct (protein_info a j) as [d|e] eqn:E; simpl.
        -- exists []. by rewrite app_nil_r.
        -- apply protein_info_raises in E. rewrite E.
           destruct (is_HTTPError e); simpl; eexists;
             by rewrite (app_nil_r data), <- app_assoc.
      * eexists. by rewrite (app_nil_r data), <- app_assoc.
Qed.

Lemma protein_attempts_cons (n : nat) (a : string) (accs : list string) :
  protein_attempts net n (a :: accs) =
  resolve a (net n (GetProtein a)) :: protein_attempts net (S n) accs.
Proof.
  unfold protein_attempts. simpl. rewrite Nat.add_0_r. f_equal.
  apply imap_ext. intros i x _. simpl. by rewrite Nat.add_succ_r.
Qed.

Lemma protein_attempts_app (n : nat) (l1 l2 : list string) :
  protein_attempts net n (l1 ++ l2) =
  protein_attempts net n l1 ++ protein_attempts net (n + List.length l1) l2.
Proof.
  revert n. induction l1 as [|a l1 IH]; intros n.
  - simpl. by rewrite Nat.add_0_r.
  - rewrite <- app_comm_cons, !protein_attempts_cons, IH.
    cbn [List.length]. by rewrite Nat.add_succ_r.
Qed.

Lemma protein_loop_run (accs : list string) (data : list pydict) (w : world) :
  exists out,
    for_each accs (protein_step net) data w =
    (Ret (data ++ resolved net (List.length (sent w)) accs),
     mkWorld (sent w ++ map GetProtein accs) (stdout w ++ out) (heap w) (fs w)).
Proof.
  revert data w. induction accs as [|a accs IH]; intros data w.
  - exists []. unfold resolved, protein_attempts. simpl.
    unfold mret, M_ret. rewrite !app_nil_r. by destruct w.
  - simpl. unfold mbind, M_bind.
    destruct (protein_step_run data a w) as [out1 ->].
    destruct (IH (data ++ keep (resolve a (net (List.length (sent w)) (GetProtein a))))
                (mkWorld (sent w ++ [GetProtein a]) (stdout w ++ out1) (heap w) (fs w)))
      as [out2 ->].
    exists (out1 ++ out2). simpl.
    unfold resolved. rewrite protein_attempts_cons. simpl.
    rewrite length_app. simpl. rewrite Nat.add_1_r.
    by rewrite <- !app_assoc.
Qed.

Lemma get_protein_information_run (accs : list string) (w : world) :
  exists out,
    get_protein_information net accs w =
    (Ret (List.length (heap w)),
     mkWorld (sent w ++ map GetProtein accs) (stdout w ++ out)
       (heap w ++ [frame_of_dicts (resolved net (List.length (sent w)) accs)]) (fs w)).
Proof.
  unfold get_protein_information, mbind, M_bind, print, new_frame. simpl.
  destruct (protein_loop_run accs []
              (mkWorld (sent w) (stdout w ++ [Text "Getting protein information from UniProt..."])
                 (heap w) (fs w))) as [out ->].
  simpl. eexists. by rewrite <- app_assoc.
Qed.

Lemma resolved_keys (n : nat) (accs : list string) :
  Forall (fun d => map fst d = protein_labels) (resolved net n accs).
Proof.
  revert n. induction accs as [|a accs IH]; intros n.
  - constructor.
  - unfold resolved. rewrite protein_attempts_cons. simpl.
    apply Forall_app. split; [|apply IH].
    unfold resolve. destruct (body_of _) as [j|]; simpl; [|constructor].
    destruct (protein_info a j) eqn:E; simpl; [|constructor].
    repeat constructor. by apply protein_info_keys in E.
Qed.

Lemma protein_labels_NoDup : NoDup protein_labels.
Proof. apply (bool_decide_unpack (NoDup protein_labels)). by vm_compute. Qed.

(** The frame of stage 1: no column at all when nothing resolved, the six
    columns of a protein record otherwise; one row per record. *)
Lemma protein_frame (n : nat) (accs : list string) :
  frame_of_dicts (resolved net n accs) =
  mkDataFrame (if resolved net n accs is [] then [] else protein_labels)
    (map (map snd) (resolved net n accs)).
Proof.
  destruct (resolved net n accs) as [|d ds] eqn:E; [done |].
  rewrite <- E. apply frame_of_dicts_uniform.
  - apply protein_labels_NoDup.
  - apply resolved_keys.
  - by rewrite E.
Qed.

Lemma keep_length {A} (l : list (outcome A)) :
  List.length (flat_map keep l) = List.length (List.filter is_ret l).
Proof.
  induction l as [|[a|e] l IH]; simpl; [done | by rewrite IH | done].
Qed.

Lemma keep_bound {A} (l : list (outcome A)) :
  (List.length (flat_map keep l) <= List.length l)%nat.
Proof.
  induction l as [|[a|e] l IH]; simpl; lia.
Qed.

(** C3: for every list of accessions [get_protein_information] returns a
    new table whose rows are the records of the accessions that raised no
    error, one each and in the order of the list; an accession that failed
    has no row, so the table is no longer than the list. *)
Theorem protein_table_rows (accs : list string) (w : world) :
  exists w' df,
    get_protein_information net accs w = (Ret (List.length (heap w)), w') /\
    heap w' = heap w ++ [df] /\
    rows df = map (map snd) (resolved net (List.length (sent w)) accs) /\
    List.length (rows df) =
      List.length (List.filter is_ret (protein_attempts net (List.length (sent w)) accs)) /\
    (List.length (rows df) <= List.length accs)%nat.
Proof.
  destruct (get_protein_information_run accs w) as [out ->].
  eexists _, _. split; [reflexivity |]. split; [reflexivity |].
  rewrite protein_frame. simpl. split; [done |].
  rewrite length_map. unfold resolved. split.
  - apply keep_length.
  - etransitivity; [apply keep_bound |].
    unfold protein_attempts. by rewrite length_imap.
Qed.

(** C4: an accession whose processing fails changes nothing for the others.
    The function still returns, every accession of the list is looked up,
    in order, and the table holds the records of the accessions before the
    failed one followed by the records of those after it. *)
Theorem protein_failure_is_skipped
  (before after : list string) (a : string) (e : pyexc) (w : world) :
  resolve a (net (List.length (sent w) + List.length before)%nat (GetProtein a)) = Raise e ->
  exists w' df,
    get_protein_information net (before ++ a :: after) w
      = (Ret (List.length (heap w)), w') /\
    heap w' = heap w ++ [df] /\
    sent w' = sent w ++ map GetProtein (before ++ a :: after) /\
    rows df = map (map snd)
                (resolved net (List.length (sent w)) before
                 ++ resolved net (List.length (sent w) + List.length before + 1) after).
Proof.
  intros Hfail.
  destruct (get_protein_information_run (before ++ a :: after) w) as [out ->].
  eexists _, _. split; [reflexivity |]. split; [reflexivity |].
  split; [reflexivity |].
  rewrite protein_frame. simpl. f_equal.
  unfold resolved. rewrite protein_attempts_app, protein_attempts_cons, flat_map_app.
  simpl. rewrite Hfail. simpl. by rewrite Nat.add_1_r.
Qed.

End Stage1.

(** ** Stage 2: cross references *)

Lemma error_status_spec (status : Z) :
  error_status status = true <-> (400 <= status < 600)%Z.
Proof. unfold error_status. lia. Qed.

Lemma body_of_raises (rp : reply) (e : pyexc) :
  body_of rp = Raise e -> is_Exception e = true.
Proof.
  destruct rp as [detail|status [j|]]; simpl; [by intros [= <-] | |];
    destruct (error_status status); by intros [= <-].
Qed.

Lemma xref_attempt_raises (rp : reply) (e : pyexc) :
  xref_attempt rp = Raise e -> is_Exception e = true.
Proof.
  unfold xref_attempt. destruct (body_of rp) as [j|e'] eqn:E; cbn [obind].
  - apply subscripts_raises.
  - intros [= <-]. by apply body_of_raises in E.
Qed.

(** The identifier a row obtains is the [id] of the first entry of the
    response list. *)
Lemma xref_attempt_first_id (rp : reply) :
  keep (xref_attempt rp) = option_list (first_id rp).
Proof.
  unfold xref_attempt, first_id.
  destruct rp as [detail|status body]; simpl; [done |].
  destruct (error_status status); simpl.
  - destruct body as [j|]; [|done].
    by destruct j as [| | | | | |[|[] ?]|].
  - destruct body as [j|]; [|done].
    destruct j as [| | | | |s|xs|]; try done.
    + simpl. destruct (seq_index _ _); [destruct (String.get _ _)|]; done.
    + destruct xs as [|x xs]; [done |].
      destruct x as [| | | | | | |candidate]; try done. simpl.
      by destruct (assoc "id" candidate).
Qed.

Section Stage2.

#[local] Arguments subscripts : simpl never.

Variable net : nat -> request -> reply.

(** One turn of the loop for a row whose organism name is a string. *)
Lemma xref_step_named (ids : list pyval) (s : string) (gene : pyval) (w : world) :
  exists out,
    xref_step net ids (PStr s, gene) w =
    (Ret (ids ++ keep (xref_attempt
                         (net (List.length (sent w)) (GetXrefsSymbol (lower s) gene)))),
     mkWorld (sent w ++ [GetXrefsSymbol (lower s) gene]) (stdout w ++ out)
       (heap w) (fs w)).
Proof.
  pose proof (xref_attempt_raises
                (net (List.length (sent w)) (GetXrefsSymbol (lower s) gene))) as Hexc.
  revert Hexc.
  unfold xref_step, try_except, xref_attempt, body_of, mbind, M_bind, requests_send,
    raise_for_status, json, lift, print, mret, M_ret, raise, error_status, py_lower.
  destruct (net (List.length (sent w)) (GetXrefsSymbol (lower s) gene))
    as [detail|status body]; simpl.
  - intros _. eexists. by rewrite (app_nil_r ids), <- app_assoc.
  - destruct ((400 <=? status)%Z && (status <? 600)%Z); simpl.
    + intros _. eexists. by rewrite (app_nil_r ids), <- app_assoc.
    + destruct body as [j|]; simpl.
      * destruct (subscripts j [Idx 0; Key "id"]) as [id|e]; simpl.
        -- intros _. exists []. by rewrite app_nil_r.
        -- intros Hexc. rewrite (Hexc e eq_refl).
           destruct (is_HTTPError e); simpl; eexists;
             by rewrite (app_nil_r ids), <- app_assoc.
      * intros _. eexists. by rewrite (app_nil_r ids), <- app_assoc.
Qed.

(** A row whose organism name is not a string has no [lower]: no request
    is sent and no identifier is appended. *)
Lemma xref_step_unnamed (ids : list pyval) (species gene : pyval) (w : world) :
  py_lower species = Raise AttributeError ->
  exists out,
    xref_step net ids (species, gene) w =
    (Ret ids, mkWorld (sent w) (stdout w ++ out) (heap w) (fs w)).
Proof.
  intros H.
  unfold xref_step, try_except, mbind, M_bind, lift, print, mret, M_ret.
  rewrite H. simpl. eexists. by rewrite <- app_assoc.
Qed.

Lemma py_lower_cases (v : pyval) :
  (exists s, v = PStr s) \/ py_lower v = Raise AttributeError.
Proof. destruct v; simpl; eauto. Qed.

(** Whatever the rows, the loop returns and touches neither the frames nor
    the files; it collects at most one identifier per row. *)
Lemma xref_loop_frames (table : list (pyval * pyval)) (ids : list pyval) (w : world) :
  exists more w',
    for_each table (xref_step net) ids w = (Ret (ids ++ more), w') /\
    (List.length more <= List.length table)%nat /\
    heap w' = heap w /\ fs w' = fs w.
Proof.
  revert ids w. induction table as [|[species gene] table IH]; intros ids w.
  - exists [], w. simpl. by rewrite app_nil_r.
  - cbn [for_each]. unfold mbind, M_bind.
    destruct (py_lower_cases species) as [[s ->]|Hno].
    + destruct (xref_step_named ids s gene w) as [out ->].
      destruct (IH (ids ++ keep (xref_attempt
                      (net (List.length (sent w)) (GetXrefsSymbol (lower s) gene))))
                  (mkWorld (sent w ++ [GetXrefsSymbol (lower s) gene]) (stdout w ++ out)
                     (heap w) (fs w)))
        as (more & w' & -> & Hlen & Hheap & Hfs).
      eexists (_ ++ more), w'. rewrite app_assoc. split; [done |].
      split; [|done]. rewrite length_app.
      destruct (xref_attempt _); simpl; lia.
    + destruct (xref_step_unnamed ids species gene w Hno) as [out ->].
      destruct (IH ids (mkWorld (sent w) (stdout w ++ out) (heap w) (fs w)))
        as (more & w' & -> & Hlen & Hheap & Hfs).
      exists more, w'. split; [done |]. split; [simpl; lia | done].
Qed.

Lemma replies_cons (n : nat) (rq : request) (rqs : list request) :
  replies net n (rq :: rqs) = net n rq :: replies net (S n) rqs.
Proof.
  unfold replies. simpl. rewrite Nat.add_0_r. f_equal.
  apply imap_ext. intros i x _. simpl. by rewrite Nat.add_succ_r.
Qed.

(** For a table of named organisms the loop sends one lookup per row, in
    order, and collects the first identifiers of the replies. *)
Lemma xref_loop_named (names : list string) (genes ids : list pyval) (w : world) :
  exists out,
    for_each (zip (map PStr names) genes) (xref_step net) ids w =
    (Ret (ids ++ omap first_id (replies net (List.length (sent w)) (lookups names genes))),
     mkWorld (sent w ++ lookups names genes) (stdout w ++ out) (heap w) (fs w)).
Proof.
  revert genes ids w. induction names as [|s names IH]; intros genes ids w.
  - exists []. simpl. unfold mret, M_ret. rewrite !app_nil_r. by destruct w.
  - destruct genes as [|gene genes].
    + exists []. simpl. unfold mret, M_ret. rewrite !app_nil_r. by destruct w.
    + cbn [map zip zip_with for_each]. unfold mbind, M_bind.
      destruct (xref_step_named ids s gene w) as [out1 ->].
      destruct (IH genes
                  (ids ++ keep (xref_attempt
                      (net (List.length (sent w)) (GetXrefsSymbol (lower s) gene))))
                  (mkWorld (sent w ++ [GetXrefsSymbol (lower s) gene]) (stdout w ++ out1)
                     (heap w) (fs w))) as [out2 ->].
      exists (out1 ++ out2). cbn [sent stdout heap fs].
      unfold lookups. cbn [zip_with]. fold (lookups names genes).
      rewrite replies_cons, xref_attempt_first_id. cbn [omap].
      rewrite length_app. cbn [List.length]. rewrite Nat.add_1_r.
      rewrite <- !app_assoc. simpl.
      by destruct (first_id _).
Qed.

Lemma deref_lookup (r : ref) (df : DataFrame) (w : world) :
  heap w !! r = Some df -> deref r w = df.
Proof. unfold deref. by intros ->. Qed.

Lemma frame_column_length (c : string) (df : DataFrame) (vs : list pyval) :
  frame_column c df = Ret vs -> List.length vs = List.length (rows df).
Proof.
  unfold frame_column. destruct (index_of c (columns df)); [|done].
  intros [= <-]. by rewrite length_map.
Qed.

(** Assigning a column the frame does not have yet, with no more values
    than rows: the lengths must agree, the old columns and cells stay, and
    the new cell is appended to each row. *)
Lemma frame_assign_new (c : string) (values : list pyval) (df df' : DataFrame) :
  index_of c (columns df) = None ->
  (List.length values <= List.length (rows df))%nat ->
  frame_assign c values df = Ret df' ->
  List.length values = List.length (rows df) /\
  df' = mkDataFrame (columns df ++ [c])
          (zip_with (fun row v => row ++ [v]) (rows df) values).
Proof.
  intros Hc Hlen. unfold frame_assign. rewrite Hc.
  assert (Hbase : match rows df, values with
                  | [], _ :: _ => map (fun _ => map (fun _ => PNaN) (columns df)) values
                  | rs, _ => rs
                  end = rows df).
  { destruct (rows df); [|done]. destruct values; [done | simpl in Hlen; lia]. }
  rewrite Hbase.
  destruct (Nat.eqb_spec (List.length values) (List.length (rows df))) as [Heq|Hne];
    simpl; [|done].
  by intros [= <-].
Qed.

(** With fewer values than rows the assignment raises. *)
Lemma frame_assign_short (c : string) (values : list pyval) (df : DataFrame) :
  (List.length values < List.length (rows df))%nat ->
  frame_assign c values df = Raise ValueError.
Proof.
  intros Hlen. unfold frame_assign.
  destruct (rows df) as [|row rs] eqn:E; [simpl in Hlen; lia |].
  destruct (Nat.eqb_spec (List.length values) (List.length (row :: rs))); [lia | done].
Qed.

(** What a call of [get_ensembl_gene_ids] that returns has done: it returns
    the reference it was given, and the frame behind it was assigned the
    collected identifiers; no file was touched. *)
Lemma get_ensembl_gene_ids_returns (r r' : ref) (df : DataFrame) (w w' : world) :
  heap w !! r = Some df ->
  get_ensembl_gene_ids net r w = (Ret r', w') ->
  r' = r /\
  exists ids df',
    (List.length ids <= List.length (rows df))%nat /\
    frame_assign col_ensembl ids df = Ret df' /\
    heap w' = <[r := df']> (heap w) /\ fs w' = fs w.
Proof.
  intros Hr.
  unfold get_ensembl_gene_ids, mbind, M_bind, print, frame_getitem, frame_setitem,
    mret, M_ret.
  rewrite !(deref_lookup r df) by exact Hr.
  destruct (frame_column col_scientific df) as [species|] eqn:Es; [|done].
  destruct (frame_column col_gene df) as [genes|] eqn:Eg; [|done].
  match goal with
  | |- context [for_each ?t ?f ?a ?w0] =>
      destruct (xref_loop_frames t a w0) as (ids & w1 & -> & Hlen & Hheap & Hfs)
  end.
  cbn [app heap fs] in *. rewrite (deref_lookup r df) by (by rewrite Hheap).
  destruct (frame_assign col_ensembl ids df) as [df'|] eqn:Ea; [|done].
  intros [= <- <-]. split; [done |]. exists ids, df'. cbn [heap fs].
  split; [|by rewrite Hheap, Hfs].
  etransitivity; [exact Hlen |].
  rewrite length_zip. apply frame_column_length in Es. lia.
Qed.

Lemma omap_no_longer {A B} (f : A -> option B) (l : list A) :
  (List.length (omap f l) <= List.length l)%nat.
Proof.
  induction l as [|x l IH]; [done |].
  change (omap f (x :: l)) with (match f x with
                                 | Some y => y :: omap f l
                                 | None => omap f l
                                 end).
  destruct (f x); simpl; lia.
Qed.

Lemma omap_shorter {A B} (f : A -> option B) (l : list A) :
  Exists (fun x => f x = None) l -> (List.length (omap f l) < List.length l)%nat.
Proof.
  induction 1 as [x l Hx|x l _ IH];
    change (omap f (x :: l)) with (match f x with
                                   | Some y => y :: omap f l
                                   | None => omap f l
                                   end).
  - rewrite Hx. pose proof (omap_no_longer f l). simpl. lia.
  - destruct (f x); simpl; lia.
Qed.

(** X17, the defect behind C2 in general: on a table of protein records,
    one reply without a first identifier is enough for the column
    assignment to raise [ValueError]; the table is left as it was. *)
Lemma any_failed_lookup_raises
  (r : ref) (df : DataFrame) (names : list string) (genes : list pyval) (w : world) :
  heap w !! r = Some df ->
  frame_column col_scientific df = Ret (map PStr names) ->
  frame_column col_gene df = Ret genes ->
  Exists (fun rp => first_id rp = None)
    (replies net (List.length (sent w)) (lookups names genes)) ->
  exists w', get_ensembl_gene_ids net r w = (Raise ValueError, w') /\ heap w' = heap w.
Proof.
  intros Hr Hs Hg Hfail.
  unfold get_ensembl_gene_ids, mbind, M_bind, print, frame_getitem, frame_setitem,
    mret, M_ret.
  rewrite !(deref_lookup r df) by exact Hr. rewrite Hs, Hg.
  match goal with
  | |- context [for_each _ _ [] ?w0] =>
      destruct (xref_loop_named names genes [] w0) as [out ->]
  end.
  cbn [app heap sent]. rewrite (deref_lookup r df) by exact Hr.
  rewrite frame_assign_short; [by eexists |].
  eapply Nat.lt_le_trans; [apply omap_shorter, Hfail |].
  unfold replies, lookups. rewrite length_imap, length_zip_with.
  apply frame_column_length in Hs, Hg. rewrite length_map in Hs. lia.
Qed.

End Stage2.

(** ** Stage 3: gene annotations *)

Lemma gene_data_raises (j id : pyval) (e : pyexc) :
  gene_data j id = Raise e -> is_Exception e = true.
Proof.
  unfold gene_data.
  destruct (py_getitem j id) as [entry|e'] eqn:E; cbn [obind].
  - destruct (py_getitem entry (PStr "description")) as [d|e'] eqn:Ed; cbn [obind].
    + destruct (py_getitem entry (PStr "seq_region_name")) as [r|e'] eqn:Er;
        cbn [obind]; [done |].
      intros [= <-]. by apply getitem_raises in Er.
    + intros [= <-]. by apply getitem_raises in Ed.
  - intros [= <-]. by apply getitem_raises in E.
Qed.

(** The dict built for an identifier: the identifier itself, and the
    description and region name of its entry in the response. *)
Lemma gene_data_annotation (j id : pyval) (d : pydict) :
  gene_data j id = Ret d <->
  exists description region,
    annotation j id description region /\
    d = [(col_ensembl, id); (col_description, description); (col_region, region)].
Proof.
  unfold gene_data, annotation. split.
  - destruct (py_getitem j id) as [entry|] eqn:E; cbn [obind]; [|done].
    destruct (py_getitem entry (PStr "description")) as [dsc|] eqn:Ed;
      cbn [obind]; [|done].
    destruct (py_getitem entry (PStr "seq_region_name")) as [reg|] eqn:Er;
      cbn [obind]; [|done].
    intros [= <-]. exists dsc, reg. split; [|done].
    exists entry. by rewrite <- !getitem_key.
  - intros (dsc & reg & (entry & E & Hd & Hr) & ->).
    apply getitem_key in Hd, Hr. rewrite E. cbn [obind]. by rewrite Hd, Hr.
Qed.

Lemma annotated_dec (j id : pyval) :
  (annotated j id /\ is_ret (gene_data j id) = true) \/
  (~ annotated j id /\ is_ret (gene_data j id) = false).
Proof.
  destruct (gene_data j id) as [d|e] eqn:E.
  - left. split; [|done].
    apply gene_data_annotation in E as (dsc & reg & H & _). by exists dsc, reg.
  - right. split; [|done]. intros (dsc & reg & H).
    assert (gene_data j id = Ret [(col_ensembl, id); (col_description, dsc);
                                  (col_region, reg)]) as E'.
    { apply gene_data_annotation. by exists dsc, reg. }
    congruence.
Qed.

Lemma collect_raises {A} (l : list (outcome A)) (e : pyexc) :
  collect l = Raise e -> Raise e ∈ l.
Proof.
  induction l as [|[a|e'] l IH]; simpl; [done | |].
  - destruct (collect l); simpl; [done |]. intros [= <-]. right. by apply IH.
  - intros [= <-]. left.
Qed.

Lemma collect_some {A} (l : list (outcome A)) :
  Exists (fun o => is_ret o = false) l -> exists e, collect l = Raise e.
Proof.
  induction l as [|[a|e] l IH]; intros H; simpl.
  - by apply Exists_nil in H.
  - apply Exists_cons in H as [?|H]; [done |].
    destruct (IH H) as [e ->]. by exists e.
  - by exists e.
Qed.

Lemma batch_raises (ids : list pyval) (rp : reply) (e : pyexc) :
  batch ids rp = Raise e -> is_Exception e = true.
Proof.
  unfold batch. destruct (body_of rp) as [j|e'] eqn:E; cbn [obind].
  - intros H. apply collect_raises, list_elem_of_In, in_map_iff in H as (id & H & _).
    by apply gene_data_raises in H.
  - intros [= <-]. by apply body_of_raises in E.
Qed.

Section Stage3.

Variable net : nat -> request -> reply.

(** The loop inside the [try] block: all dicts, or the first exception; the
    world is not touched. *)
Lemma gene_loop_run (j : pyval) (ids : list pyval) (data : list pydict) (w : world) :
  for_each ids (gene_step j) data w =
  (obind (collect (map (gene_data j) ids)) (fun more => Ret (data ++ more)), w).
Proof.
  revert data. induction ids as [|id ids IH]; intros data; simpl.
  - unfold mret, M_ret. by rewrite app_nil_r.
  - unfold mbind, M_bind, gene_step, lift, mret, M_ret. fold (gene_step j).
    unfold mbind, M_bind.
    destruct (gene_data j id) as [d|e]; simpl; [|done].
    rewrite IH. destruct (collect (map (gene_data j) ids)); simpl; [|done].
    by rewrite <- app_assoc.
Qed.

(** [get_gene_data] sends its one request and then either allocates the
    table of all annotations or leaves through [sys.exit()]. *)
Lemma get_gene_data_run (ids : list pyval) (w : world) :
  exists out,
    get_gene_data net ids w =
    match batch ids (net (List.length (sent w)) (PostLookupId ids)) with
    | Ret data =>
        (Ret (List.length (heap w)),
         mkWorld (sent w ++ [PostLookupId ids]) (stdout w ++ out)
           (heap w ++ [frame_of_dicts data]) (fs w))
    | Raise _ =>
        (Raise (SystemExit None),
         mkWorld (sent w ++ [PostLookupId ids]) (stdout w ++ out ++ [terminating])
           (heap w) (fs w))
    end.
Proof.
  pose proof (batch_raises ids (net (List.length (sent w)) (PostLookupId ids))) as Hexc.
  revert Hexc.
  unfold get_gene_data, try_except, batch, body_of, mbind, M_bind, requests_send,
    raise_for_status, json, print, mret, M_ret, raise, sys_exit, error_status, new_frame.
  cbn [sent stdout heap fs].
  destruct (net (List.length (sent w)) (PostLookupId ids)) as [detail|status body];
    simpl.
  - intros _. eexists [_; _]. by rewrite <- !app_assoc.
  - destruct ((400 <=? status)%Z && (status <? 600)%Z); simpl.
    + intros _. eexists [_; _]. by rewrite <- !app_assoc.
    + destruct body as [j|]; simpl.
      * rewrite gene_loop_run.
        destruct (collect (map (gene_data j) ids)) as [data|e]; simpl.
        -- intros _. by eexists.
        -- intros Hexc. rewrite (Hexc e eq_refl).
           destruct (is_HTTPError e); simpl; eexists [_; _]; by rewrite <- !app_assoc.
      * intros _. eexists [_; _]. by rewrite <- !app_assoc.
Qed.

Lemma gene_labels_NoDup : NoDup gene_labels.
Proof. apply (bool_decide_unpack (NoDup gene_labels)). by vm_compute. Qed.

Lemma gene_dicts (j : pyval) (ids : list pyval) :
  Forall (annotated j) ids ->
  exists data,
    collect (map (gene_data j) ids) = Ret data /\
    Forall (fun d => map fst d = gene_labels) data /\
    Forall2 (fun id d => exists description region,
               annotation j id description region /\
               d = [(col_ensembl, id); (col_description, description);
                    (col_region, region)]) ids data.
Proof.
  induction ids as [|id ids IH]; intros Hall.
  - exists []. by repeat constructor.
  - apply Forall_cons in Hall as [(dsc & reg & Hid) Hall].
    destruct (IH Hall) as (data & Hc & Hk & H2).
    exists ([(col_ensembl, id); (col_description, dsc); (col_region, reg)] :: data).
    cbn [map collect]. rewrite Hc.
    assert (gene_data j id = Ret [(col_ensembl, id); (col_description, dsc);
                                  (col_region, reg)]) as ->.
    { apply gene_data_annotation. by exists dsc, reg. }
    split; [done |]. split; constructor; try done. by exists dsc, reg.
Qed.

Lemma gene_rows (j : pyval) (ids : list pyval) (data : list pydict) :
  Forall2 (fun id d => exists description region,
             annotation j id description region /\
             d = [(col_ensembl, id); (col_description, description);
                  (col_region, region)]) ids data ->
  Forall2 (fun id row => exists description region,
             annotation j id description region /\
             row = [id; description; region]) ids (map (map snd) data).
Proof.
  induction 1 as [|id d ids data (dsc & reg & Ha & ->) _ IH]; simpl; constructor;
    [by exists dsc, reg | done].
Qed.

(** When the service answers and every identifier is annotated, the call
    returns a new table with one row per identifier. *)
Lemma gene_table (ids : list pyval) (w : world) (status : Z) (j : pyval) :
  net (List.length (sent w)) (PostLookupId ids) = Reply status (Some j) ->
  error_status status = false ->
  Forall (annotated j) ids ->
  exists w' df,
    get_gene_data net ids w = (Ret (List.length (heap w)), w') /\
    heap w' = heap w ++ [df] /\ fs w' = fs w /\
    columns df = (if ids is [] then [] else gene_labels) /\
    Forall2 (fun id row => exists description region,
               annotation j id description region /\
               row = [id; description; region]) ids (rows df).
Proof.
  intros Hnet Hok Hall.
  destruct (get_gene_data_run ids w) as [out Hrun].
  unfold batch, body_of in Hrun. rewrite Hnet, Hok in Hrun. cbn [obind] in Hrun.
  destruct (gene_dicts j ids Hall) as (data & Hc & Hk & H2).
  rewrite Hc in Hrun. rewrite Hrun.
  eexists _, _. split; [reflexivity |]. split; [reflexivity |]. split; [reflexivity |].
  destruct data as [|d data].
  - apply Forall2_nil_inv_r in H2 as ->. by split; [|constructor].
  - rewrite (frame_of_dicts_uniform gene_labels) by (done || apply gene_labels_NoDup).
    cbn [columns rows]. split.
    + by apply Forall2_cons_inv_r in H2 as (?&?&_&_&->).
    + by apply gene_rows.
Qed.

(** When some identifier is not annotated in the response, the call leaves
    through [sys.exit()]: no table is made. *)
Lemma gene_table_exit (ids : list pyval) (w : world) (status : Z) (j : pyval) :
  net (List.length (sent w)) (PostLookupId ids) = Reply status (Some j) ->
  error_status status = false ->
  Exists (fun id => ~ annotated j id) ids ->
  exists w',
    get_gene_data net ids w = (Raise (SystemExit None), w') /\
    heap w' = heap w /\ fs w' = fs w.
Proof.
  intros Hnet Hok Hsome.
  destruct (get_gene_data_run ids w) as [out Hrun].
  unfold batch, body_of in Hrun. rewrite Hnet, Hok in Hrun. cbn [obind] in Hrun.
  destruct (collect_some (map (gene_data j) ids)) as [e He].
  { apply Exists_exists in Hsome as (id & Hin & Hno).
    apply Exists_exists. exists (gene_data j id). split.
    - apply list_elem_of_In, in_map, list_elem_of_In, Hin.
    - by destruct (annotated_dec j id) as [[? _]|[_ ?]]. }
  rewrite He in Hrun. rewrite Hrun. by eexists.
Qed.

(** [get_gene_data] never changes a frame that exists already. *)
Lemma get_gene_data_keeps_frames (ids : list pyval) (w w' : world) (o : outcome ref) :
  get_gene_data net ids w = (o, w') -> heap w `prefix_of` heap w' /\ fs w' = fs w.
Proof.
  destruct (get_gene_data_run ids w) as [out ->].
  destruct (batch ids _); intros [= <- <-]; simpl; split; try done.
  by eexists.
Qed.

(** C5 (amended): when the batched call is answered, the result is all or
    nothing.  If every submitted identifier has an entry with a description
    and a region name in the response, [get_gene_data] returns a new table
    with as many rows as identifiers, holding for each submitted identifier
    a row of the identifier, its description and its region name.  If some
    submitted identifier has no such entry, [get_gene_data] makes no table:
    it leaves through [sys.exit()]. *)
Theorem gene_table_all_or_nothing
  (ids : list pyval) (w : world) (status : Z) (j : pyval) :
  net (List.length (sent w)) (PostLookupId ids) = Reply status (Some j) ->
  error_status status = false ->
  (Forall (annotated j) ids ->
   exists w' df,
     get_gene_data net ids w = (Ret (List.length (heap w)), w') /\
     heap w' = heap w ++ [df] /\
     List.length (rows df) = List.length ids /\
     forall id, id ∈ ids ->
       exists description region,
         annotation j id description region /\ [id; description; region] ∈ rows df) /\
  (Exists (fun id => ~ annotated j id) ids ->
   exists w',
     get_gene_data net ids w = (Raise (SystemExit None), w') /\
     heap w' = heap w /\ fs w' = fs w).
Proof.
  intros Hnet Hok. split.
  - intros Hall.
    destruct (gene_table ids w status j Hnet Hok Hall)
      as (w' & df & Hrun & Hheap & _ & _ & H2).
    exists w', df. split; [done |]. split; [done |].
    split; [symmetry; by eapply Forall2_length |].
    intros id Hin. apply list_elem_of_lookup in Hin as [i Hi].
    destruct (Forall2_lookup_l _ _ _ _ _ H2 Hi) as (row & Hrow & dsc & reg & Ha & ->).
    exists dsc, reg. split; [done |]. apply list_elem_of_lookup. by exists i.
  - by apply (gene_table_exit ids w status j).
Qed.

(** C10 (amended): when the batched call is answered and every submitted
    identifier has an entry with a description and a region name in the
    response, the rows of the returned table follow the order of the
    identifier list: row number [i] holds identifier number [i], with its
    description and region name.  The table of the empty list is empty. *)
Theorem gene_table_order (ids : list pyval) (w : world) (status : Z) (j : pyval) :
  net (List.length (sent w)) (PostLookupId ids) = Reply status (Some j) ->
  error_status status = false ->
  Forall (annotated j) ids ->
  exists w' df,
    get_gene_data net ids w = (Ret (List.length (heap w)), w') /\
    heap w' = heap w ++ [df] /\
    Forall2 (fun id row => exists description region,
               annotation j id description region /\
               row = [id; description; region]) ids (rows df) /\
    (ids = [] -> df = empty_frame).
Proof.
  intros Hnet Hok Hall.
  destruct (gene_table ids w status j Hnet Hok Hall)
    as (w' & df & Hrun & Hheap & _ & Hcols & H2).
  exists w', df. repeat split; try done.
  intros ->. apply Forall2_nil_inv_l in H2.
  destruct df as [cols rs]. simpl in *. by subst.
Qed.

End Stage3.

(** ** The outer join *)

Lemma nulls_are_null (cols : list string) : Forall (fun v => is_null v = true) (nulls cols).
Proof. unfold nulls. induction cols; simpl; by constructor. Qed.

Lemma forallb_false {A} (f : A -> bool) (l : list A) :
  forallb f l = false -> exists x, x ∈ l /\ f x = false.
Proof.
  induction l as [|x l IH]; simpl; [done |].
  destruct (f x) eqn:E; simpl.
  - intros H. destruct (IH H) as (y & Hy & Hf). exists y. split; [by right | done].
  - intros _. exists x. split; [left | done].
Qed.

(** The merge keeps every row of either table.  A row of the left table
    appears joined with each of its partners in the right table, or, when
    it has none, with nulls in the right table's columns; a row of the
    right table appears joined with a partner of the left table, or, when
    it has none, with nulls in the left table's columns next to its
    identifier. *)
Lemma merge_outer_keeps_rows (on : string) (left right out : DataFrame) :
  merge_outer on left right = Ret out ->
  exists il ir,
    index_of on (columns left) = Some il /\
    index_of on (columns right) = Some ir /\
    (forall l, l ∈ rows left ->
       (exists r, r ∈ rows right /\ key_eqb (cell il l) (cell ir r) = true /\
                  l ++ drop_at ir r ∈ rows out) \/
       ((forall r, r ∈ rows right -> key_eqb (cell il l) (cell ir r) = false) /\
        l ++ nulls (drop_at ir (columns right)) ∈ rows out)) /\
    (forall r, r ∈ rows right ->
       (exists l, l ∈ rows left /\ key_eqb (cell il l) (cell ir r) = true /\
                  l ++ drop_at ir r ∈ rows out) \/
       ((forall l, l ∈ rows left -> key_eqb (cell il l) (cell ir r) = false) /\
        <[il := cell ir r]> (nulls (columns left)) ++ drop_at ir r ∈ rows out)).
Proof.
  unfold merge_outer.
  destruct (index_of on (columns left)) as [il|]; [|done].
  destruct (index_of on (columns right)) as [ir|]; [|done].
  destruct (forallb _ _ && forallb _ _); [|done].
  intros [= <-]. exists il, ir. split; [done |]. split; [done |]. cbn [rows].
  split.
  - intros l Hl.
    destruct (filter (fun r => key_eqb (cell il l) (cell ir r) = true) (rows right))
      as [|p ps] eqn:E.
    + right. split.
      * intros r Hr. destruct (key_eqb (cell il l) (cell ir r)) eqn:Ek; [|done].
        exfalso. by apply (filter_nil_not_elem_of _ _ r E).
      * apply elem_of_app. left. apply list_elem_of_In, in_flat_map.
        exists l. split; [by apply list_elem_of_In |]. rewrite E. by left.
    + left. exists p.
      assert (p ∈ filter (fun r => key_eqb (cell il l) (cell ir r) = true) (rows right))
        as Hp by (rewrite E; left).
      apply list_elem_of_filter in Hp as [Hk Hp]. split; [done |]. split; [done |].
      apply elem_of_app. left. apply list_elem_of_In, in_flat_map.
      exists l. split; [by apply list_elem_of_In |]. rewrite E. by left.
  - intros r Hr.
    destruct (forallb (fun l => negb (key_eqb (cell il l) (cell ir r))) (rows left))
      eqn:E.
    + right. rewrite forallb_forall in E. split.
      * intros l Hl. apply list_elem_of_In, E in Hl. by apply negb_true_iff in Hl.
      * apply elem_of_app. right. apply list_elem_of_In, in_map_iff.
        exists r. split; [done |]. apply list_elem_of_In, list_elem_of_filter.
        split; [|done]. by apply forallb_forall.
    + left. apply forallb_false in E as (l & Hl & Hk).
      apply negb_false_iff in Hk. exists l. split; [done |]. split; [done |].
      apply elem_of_app. left. apply list_elem_of_In, in_flat_map.
      exists l. split; [by apply list_elem_of_In |].
      assert (r ∈ filter (fun r => key_eqb (cell il l) (cell ir r) = true) (rows right))
        as Hin by (by apply list_elem_of_filter).
      destruct (filter (fun r => key_eqb (cell il l) (cell ir r) = true) (rows right))
        as [|p ps]; [by apply not_elem_of_nil in Hin |].
      apply (in_map (fun r' => l ++ drop_at ir r') (p :: ps) r).
      by apply list_elem_of_In.
Qed.

(** ** The stages together *)

Lemma frame_merge_keeps_frames (l r : ref) (on : string) (w w' : world) (o : outcome ref) :
  frame_merge l r on w = (o, w') -> heap w `prefix_of` heap w' /\ fs w' = fs w.
Proof.
  unfold frame_merge, new_frame.
  destruct (merge_outer on (deref l w) (deref r w)); intros [= <- <-]; simpl;
    split; try done. by eexists.
Qed.

Lemma protein_frame_has_no_identifier (net : nat -> request -> reply) (n : nat)
  (accs : list string) :
  index_of col_ensembl (columns (frame_of_dicts (resolved net n accs))) = None.
Proof. rewrite protein_frame. simpl. by destruct (resolved net n accs). Qed.

Section Pipeline.

Variable net : nat -> request -> reply.

(** C9: stage 2 works on the table of stage 1 itself.  It returns the
    reference it was given; the frame behind it keeps its columns, in
    order, and gains the identifier column as the last one; every row keeps
    its cells and gains one; no other frame changes.  The other stages only
    add frames: [get_protein_information], [get_gene_data] and the merge
    leave every existing frame as it is, and so does the export. *)
Theorem cross_reference_in_place
  (accs : list string) (w0 w1 w2 : world) (r r' : ref) :
  get_protein_information net accs w0 = (Ret r, w1) ->
  get_ensembl_gene_ids net r w1 = (Ret r', w2) ->
  (r' = r /\
   exists df ids,
     heap w1 !! r = Some df /\
     List.length ids = List.length (rows df) /\
     heap w2 = <[r := mkDataFrame (columns df ++ [col_ensembl])
                        (zip_with (fun row id => row ++ [id]) (rows df) ids)]>
                 (heap w1)) /\
  (forall accs' w o w',
     get_protein_information net accs' w = (o, w') -> heap w `prefix_of` heap w') /\
  (forall ids w o w',
     get_gene_data net ids w = (o, w') -> heap w `prefix_of` heap w') /\
  (forall left right on w o w',
     frame_merge left right on w = (o, w') -> heap w `prefix_of` heap w') /\
  (forall result path w o w',
     to_excel result path w = (o, w') -> heap w' = heap w).
Proof.
  intros H1 H2. split; [|split; [|split; [|split]]].
  - destruct (get_protein_information_run net accs w0) as [out Hrun].
    rewrite Hrun in H1. injection H1 as <- <-.
    set (df := frame_of_dicts (resolved net (List.length (sent w0)) accs)) in *.
    assert (Hr : (heap w0 ++ [df]) !! List.length (heap w0) = Some df).
    { by rewrite lookup_app_r, Nat.sub_diag. }
    match type of H2 with
    | get_ensembl_gene_ids _ ?r0 ?w1 = _ =>
        destruct (get_ensembl_gene_ids_returns net r0 r' df w1 w2 Hr H2)
          as (-> & ids & df' & Hlen & Hassign & Hheap & _)
    end.
    split; [done |]. exists df, ids. split; [done |].
    apply frame_assign_new in Hassign as [Hlen' ->];
      [| apply protein_frame_has_no_identifier | done].
    done.
  - intros accs' w o w' H.
    destruct (get_protein_information_run net accs' w) as [out Hrun].
    rewrite Hrun in H. injection H as <- <-. by eexists.
  - intros ids w o w' H. by apply get_gene_data_keeps_frames in H as [? _].
  - intros left right on w o w' H. by apply frame_merge_keeps_frames in H as [? _].
  - intros result path w o w'. unfold to_excel. by intros [= <- <-].
Qed.

(** C1 (amended): when the batched annotation call fails, the script stops
    at once through [sys.exit()] without an argument, so its exit status
    is 0; nothing is merged and no file is created or changed. *)
Theorem batch_failure_terminates
  (files : gmap string DataFrame) (r1 r2 : ref) (w1 w2 w3 : world)
  (ids : list pyval) (e : pyexc) :
  get_protein_information net accessions (initial_world files) = (Ret r1, w1) ->
  get_ensembl_gene_ids net r1 w1 = (Ret r2, w2) ->
  frame_getitem r2 col_ensembl w2 = (Ret ids, w3) ->
  batch ids (net (List.length (sent w3)) (PostLookupId ids)) = Raise e ->
  exists w',
    main net (initial_world files) = (Raise (SystemExit None), w') /\
    run net files = (0%Z, w') /\
    fs w' = files /\ heap w' = heap w3.
Proof.
  intros H1 H2 H3 Hb.
  destruct (get_gene_data_run net ids w3) as [out Hrun]. rewrite Hb in Hrun.
  assert (Hmain : main net (initial_world files) =
                  (Raise (SystemExit None),
                   mkWorld (sent w3 ++ [PostLookupId ids])
                     (stdout w3 ++ out ++ [terminating]) (heap w3) (fs w3))).
  { unfold main, mbind, M_bind. by rewrite H1, H2, H3, Hrun. }
  eexists. split; [exact Hmain |]. split; [unfold run; by rewrite Hmain |].
  split; [|done]. cbn [fs].
  destruct (get_protein_information_run net accessions (initial_world files))
    as [out1 Hrun1].
  rewrite Hrun1 in H1. injection H1 as <- <-.
  match type of H2 with
  | get_ensembl_gene_ids _ ?r0 ?w1 = _ =>
      destruct (get_ensembl_gene_ids_returns net r0 r2
                  (frame_of_dicts (resolved net 0 accessions)) w1 w2 eq_refl H2)
        as (_ & _ & _ & _ & _ & _ & Hfs)
  end.
  unfold frame_getitem in H3. injection H3 as _ <-. by rewrite Hfs.
Qed.

End Pipeline.

(** ** The claims on sample runs *)

(** C2: a single failed lookup makes [get_ensembl_gene_ids] raise.  On the
    table with one protein, with the cross-reference service answering 404,
    the loop reports the error and collects nothing; the assignment of the
    empty list to the column of a one-row table raises [ValueError], and no
    table with a null identifier is returned. *)
Theorem failed_lookup_breaks_assignment :
  get_ensembl_gene_ids xrefs_down_net 0%nat one_protein_world =
  (Raise ValueError,
   mkWorld [GetXrefsSymbol "homo sapiens" (PStr "TP53")]
     [Text "Getting Ensembl gene IDs...";
      Report "HTTPError for species and gene" [PStr "Homo sapiens"; PStr "TP53"]
        (HTTPError 404);
      still_processed]
     [one_protein] ∅).
Proof. reflexivity. Qed.

Lemma protein_record_fields_witness :
  protein_info "P04637"
    (sample_protein "Cellular tumor antigen p53" "TP53" "Homo sapiens" "Human" 43653)
  = Ret [(col_accession, PStr "P04637"); (col_name, PStr "Cellular tumor antigen p53");
         (col_gene, PStr "TP53"); (col_scientific, PStr "Homo sapiens");
         (col_common, PStr "Human"); (col_weight, PInt 43653)] /\
  exists name gene scientific common mass,
    [(col_accession, PStr "P04637"); (col_name, PStr "Cellular tumor antigen p53");
     (col_gene, PStr "TP53"); (col_scientific, PStr "Homo sapiens");
     (col_common, PStr "Human"); (col_weight, PInt 43653)]
    = [(col_accession, PStr "P04637"); (col_name, name); (col_gene, gene);
       (col_scientific, scientific); (col_common, common); (col_weight, mass)].
Proof.
  split; [reflexivity |].
  destruct (protein_record_fields "P04637"
              (sample_protein "Cellular tumor antigen p53" "TP53" "Homo sapiens"
                 "Human" 43653) _ eq_refl)
    as (name & gene & scientific & common & mass & H & _).
  by exists name, gene, scientific, common, mass.
Defined.

Lemma protein_failure_is_skipped_witness :
  resolve "Q8N726" (sample_net 1 (GetProtein "Q8N726")) = Raise (HTTPError 404) /\
  exists w' df,
    get_protein_information sample_net (["P12345"] ++ "Q8N726" :: ["O00255"])
      (initial_world ∅) = (Ret 0%nat, w') /\
    heap w' = [df] /\
    sent w' = map GetProtein (["P12345"] ++ "Q8N726" :: ["O00255"]) /\
    rows df = map (map snd) (resolved sample_net 0 ["P12345"]
                             ++ resolved sample_net 2 ["O00255"]).
Proof.
  split; [reflexivity |].
  exact (protein_failure_is_skipped sample_net ["P12345"] ["O00255"] "Q8N726"
           (HTTPError 404) (initial_world ∅) eq_refl).
Defined.

Lemma cross_reference_in_place_witness :
  get_protein_information sample_net accessions (initial_world ∅)
    = (Ret 0%nat, sample_w1) /\
  get_ensembl_gene_ids sample_net 0%nat sample_w1 = (Ret 0%nat, sample_w2) /\
  (0%nat = 0%nat /\
   exists df ids,
     heap sample_w1 !! 0%nat = Some df /\
     List.length ids = List.length (rows df) /\
     heap sample_w2 =
       <[0%nat := mkDataFrame (columns df ++ [col_ensembl])
                    (zip_with (fun row id => row ++ [id]) (rows df) ids)]>
         (heap sample_w1)).
Proof.
  assert (H1 : get_protein_information sample_net accessions (initial_world ∅)
               = (Ret 0%nat, sample_w1)) by (vm_compute; reflexivity).
  assert (H2 : get_ensembl_gene_ids sample_net 0%nat sample_w1
               = (Ret 0%nat, sample_w2)) by (vm_compute; reflexivity).
  split; [exact H1 |]. split; [exact H2 |].
  exact (proj1 (cross_reference_in_place sample_net accessions (initial_world ∅)
                  sample_w1 sample_w2 0%nat 0%nat H1 H2)).
Defined.

(** C1, as stated, fails: with the annotation service answering 500 the
    batched call raises, and the script ends with exit status 0. *)
Lemma batch_failure_exit_status_zero :
  batch down_ids (lookup_down_net 5 (PostLookupId down_ids)) = Raise (HTTPError 500) /\
  fst (main lookup_down_net (initial_world ∅)) = Raise (SystemExit None) /\
  fst (run lookup_down_net ∅) = 0%Z /\
  ~ (fst (run lookup_down_net ∅) <> 0%Z).
Proof.
  assert (H : fst (run lookup_down_net ∅) = 0%Z) by (vm_compute; reflexivity).
  split; [reflexivity |]. split; [vm_compute; reflexivity |]. split; [exact H |].
  intros Hne. exact (Hne H).
Qed.

Lemma batch_failure_terminates_witness :
  get_protein_information lookup_down_net accessions (initial_world ∅)
    = (Ret 0%nat, down_w1) /\
  get_ensembl_gene_ids lookup_down_net 0%nat down_w1 = (Ret 0%nat, down_w2) /\
  frame_getitem 0%nat col_ensembl down_w2 = (Ret down_ids, down_w2) /\
  batch down_ids (lookup_down_net (List.length (sent down_w2)) (PostLookupId down_ids))
    = Raise (HTTPError 500) /\
  exists w',
    main lookup_down_net (initial_world ∅) = (Raise (SystemExit None), w') /\
    run lookup_down_net ∅ = (0%Z, w') /\
    fs w' = ∅ /\ heap w' = heap down_w2.
Proof.
  assert (H1 : get_protein_information lookup_down_net accessions (initial_world ∅)
               = (Ret 0%nat, down_w1)) by (vm_compute; reflexivity).
  assert (H2 : get_ensembl_gene_ids lookup_down_net 0%nat down_w1
               = (Ret 0%nat, down_w2)) by (vm_compute; reflexivity).
  assert (H3 : frame_getitem 0%nat col_ensembl down_w2 = (Ret down_ids, down_w2))
    by (vm_compute; reflexivity).
  assert (H4 : batch down_ids
                 (lookup_down_net (List.length (sent down_w2)) (PostLookupId down_ids))
               = Raise (HTTPError 500)) by (vm_compute; reflexivity).
  repeat (split; [assumption |]).
  exact (batch_failure_terminates lookup_down_net ∅ 0%nat 0%nat down_w1 down_w2 down_w2
           down_ids (HTTPError 500) H1 H2 H3 H4).
Defined.

Lemma sample_ids_annotated : Forall (annotated sample_annotations) sample_ids.
Proof.
  repeat constructor.
  - exists (PStr "gene ENSG00000141510"), (PStr "11"). eexists. split; [reflexivity |].
    split; eexists; split; reflexivity.
  - exists (PStr "gene ENSG00000012048"), (PStr "11"). eexists. split; [reflexivity |].
    split; eexists; split; reflexivity.
Defined.

(** C5, as stated, fails: the annotation service answers with an empty
    mapping, so the submitted identifier is absent from the response; the
    call does not return a table without the row, it leaves through
    [sys.exit()]. *)
Lemma absent_identifier_exits :
  knows_nothing_net 0 (PostLookupId [PStr "ENSG00000141510"])
    = Reply 200 (Some (PDict [])) /\
  fst (get_gene_data knows_nothing_net [PStr "ENSG00000141510"] (initial_world ∅))
    = Raise (SystemExit None) /\
  heap (snd (get_gene_data knows_nothing_net [PStr "ENSG00000141510"] (initial_world ∅)))
    = [].
Proof. repeat split; vm_compute; reflexivity. Qed.

Lemma gene_table_all_or_nothing_witness :
  sample_net 0 (PostLookupId sample_ids) = Reply 200 (Some sample_annotations) /\
  error_status 200 = false /\
  Forall (annotated sample_annotations) sample_ids /\
  exists w' df,
    get_gene_data sample_net sample_ids (initial_world ∅) = (Ret 0%nat, w') /\
    heap w' = [df] /\
    List.length (rows df) = 2%nat /\
    forall id, id ∈ sample_ids ->
      exists description region,
        annotation sample_annotations id description region /\
        [id; description; region] ∈ rows df.
Proof.
  split; [reflexivity |]. split; [reflexivity |]. split; [exact sample_ids_annotated |].
  exact (proj1 (gene_table_all_or_nothing sample_net sample_ids (initial_world ∅) 200
                  sample_annotations eq_refl eq_refl) sample_ids_annotated).
Defined.

(** C10, as stated, fails: the submitted identifier is a key of the
    response, but its entry has no region name; the call returns no rows,
    it leaves through [sys.exit()]. *)
Lemma present_identifier_without_region_exits :
  no_region_net 0 (PostLookupId [PStr "ENSG00000141510"])
    = Reply 200 (Some (PDict [("ENSG00000141510",
                               PDict [("description", PStr "gene ENSG00000141510")])])) /\
  fst (get_gene_data no_region_net [PStr "ENSG00000141510"] (initial_world ∅))
    = Raise (SystemExit None) /\
  heap (snd (get_gene_data no_region_net [PStr "ENSG00000141510"] (initial_world ∅)))
    = [].
Proof. repeat split; vm_compute; reflexivity. Qed.

Lemma gene_table_order_witness :
  sample_net 0 (PostLookupId sample_ids) = Reply 200 (Some sample_annotations) /\
  error_status 200 = false /\
  Forall (annotated sample_annotations) sample_ids /\
  exists w' df,
    get_gene_data sample_net sample_ids (initial_world ∅) = (Ret 0%nat, w') /\
    heap w' = [df] /\
    Forall2 (fun id row => exists description region,
               annotation sample_annotations id description region /\
               row = [id; description; region]) sample_ids (rows df) /\
    (sample_ids = [] -> df = empty_frame).
Proof.
  split; [reflexivity |]. split; [reflexivity |]. split; [exact sample_ids_annotated |].
  exact (gene_table_order sample_net sample_ids (initial_world ∅) 200
           sample_annotations eq_refl eq_refl sample_ids_annotated).
Defined.

(** * Further properties of the script *)

(** ** Frames: shape, assignment and reading back *)

Lemma frame_of_dicts_well_formed (data : list pydict) :
  well_formed (frame_of_dicts data).
Proof.
  unfold well_formed, frame_of_dicts. cbn [rows columns].
  apply Forall_forall. intros row Hin.
  apply list_elem_of_In, in_map_iff in Hin as (d & <- & _). by rewrite length_map.
Qed.

Lemma frame_column_raises (c : string) (df : DataFrame) (e : pyexc) :
  frame_column c df = Raise e -> e = KeyError.
Proof. unfold frame_column. destruct (index_of c (columns df)); [done | by intros [= <-]]. Qed.

Lemma frame_assign_raises (c : string) (values : list pyval) (df : DataFrame) (e : pyexc) :
  frame_assign c values df = Raise e -> e = ValueError.
Proof.
  unfold frame_assign.
  destruct (negb _); [by intros [= <-] |].
  by destruct (index_of c (columns df)).
Qed.

Lemma frame_assign_ok (c : string) (values : list pyval) (df : DataFrame) :
  index_of c (columns df) = None ->
  List.length values = List.length (rows df) ->
  frame_assign c values df =
  Ret (mkDataFrame (columns df ++ [c])
         (zip_with (fun row v => row ++ [v]) (rows df) values)).
Proof.
  intros Hc Hlen. unfold frame_assign. rewrite Hc.
  assert (Hbase : match rows df, values with
                  | [], _ :: _ => map (fun _ => map (fun _ => PNaN) (columns df)) values
                  | rs, _ => rs
                  end = rows df).
  { destruct (rows df); [|done]. by destruct values. }
  rewrite Hbase. rewrite Hlen, Nat.eqb_refl. done.
Qed.

Lemma index_of_new (c : string) (cols : list string) :
  index_of c cols = None -> index_of c (cols ++ [c]) = Some (List.length cols).
Proof.
  induction cols as [|c' cols IH]; simpl.
  - by rewrite String.eqb_refl.
  - destruct (String.eqb c c'); [done |].
    destruct (index_of c cols); [done |]. intros _. by rewrite IH.
Qed.

Lemma cell_appended (row : list pyval) (v : pyval) :
  cell (List.length row) (row ++ [v]) = v.
Proof. unfold cell. by rewrite lookup_app_r, Nat.sub_diag. Qed.

(** Reading back a column that was just added gives the assigned values. *)
Lemma column_read_back (c : string) (df : DataFrame) (values : list pyval) :
  index_of c (columns df) = None ->
  well_formed df ->
  List.length values = List.length (rows df) ->
  frame_column c (mkDataFrame (columns df ++ [c])
                    (zip_with (fun row v => row ++ [v]) (rows df) values))
  = Ret values.
Proof.
  intros Hc Hwf Hlen. unfold frame_column. cbn [columns rows].
  rewrite (index_of_new c (columns df) Hc). f_equal.
  unfold well_formed in Hwf. revert values Hlen.
  induction Hwf as [|row rs Hrow _ IH]; intros [|v values] Hlen; try done.
  simpl. f_equal.
  - rewrite <- Hrow. apply cell_appended.
  - apply IH. simpl in Hlen. lia.
Qed.

Lemma deref_same_heap (r : ref) (w1 w2 : world) :
  heap w1 = heap w2 -> deref r w1 = deref r w2.
Proof. unfold deref. by intros ->. Qed.

(** ** Stage 1 *)

Lemma field_unique (k : string) (v a b : pyval) : field k v a -> field k v b -> a = b.
Proof. intros (i1 & -> & H1) (i2 & [= <-] & H2). congruence. Qed.

Section MoreStage1.

Variable net : nat -> request -> reply.

(** X1: whatever the replies, [get_protein_information] sends exactly one
    request per accession of the list, in the order of the list and
    duplicates included; it changes no file and no frame that exists. *)
Theorem protein_requests (accs : list string) (w : world) :
  sent (snd (get_protein_information net accs w)) = sent w ++ map GetProtein accs /\
  fs (snd (get_protein_information net accs w)) = fs w /\
  heap w `prefix_of` heap (snd (get_protein_information net accs w)).
Proof.
  destruct (get_protein_information_run net accs w) as [out ->]. simpl.
  split; [done |]. split; [done |]. by eexists.
Qed.

Lemma resolved_accessions (n : nat) (accs : list string) :
  Forall (fun d => exists a, a ∈ accs /\ map snd d !! 0%nat = Some (PStr a))
    (resolved net n accs).
Proof.
  revert n. induction accs as [|a accs IH]; intros n.
  - constructor.
  - unfold resolved. rewrite protein_attempts_cons. simpl.
    apply Forall_app. split.
    + unfold resolve. destruct (body_of _) as [j|]; simpl; [|constructor].
      destruct (protein_info a j) as [d|] eqn:E; simpl; [|constructor].
      apply protein_info_inv in E as (?&?&?&?&?&_&_&_&_&_&->).
      repeat constructor. exists a. split; [left | done].
    + eapply Forall_impl; [apply IH |].
      intros d (a' & Hin & Hd). exists a'. split; [by right | done].
Qed.

(** X2: the table of stage 1 has either no column and no row (nothing
    resolved) or exactly the six columns of a protein record, in order, and
    at least one row; every row has one cell per column, and its first cell
    is one of the accessions of the input list. *)
Theorem protein_table_shape (accs : list string) (w : world) :
  exists w' df,
    get_protein_information net accs w = (Ret (List.length (heap w)), w') /\
    heap w' = heap w ++ [df] /\
    well_formed df /\
    ((columns df = [] /\ rows df = []) \/
     (columns df = protein_labels /\ rows df <> [])) /\
    Forall (fun row => exists a, a ∈ accs /\ row !! 0%nat = Some (PStr a)) (rows df).
Proof.
  destruct (get_protein_information_run net accs w) as [out ->].
  eexists _, _. split; [reflexivity |]. split; [reflexivity |].
  split; [apply frame_of_dicts_well_formed |].
  rewrite protein_frame. cbn [columns rows]. split.
  - destruct (resolved net (List.length (sent w)) accs); [by left | by right].
  - apply Forall_forall. intros row Hin.
    apply list_elem_of_In, in_map_iff in Hin as (d & <- & Hd).
    pose proof (resolved_accessions (List.length (sent w)) accs) as Hall.
    rewrite Forall_forall in Hall. apply Hall. by apply list_elem_of_In.
Qed.

(** X16: a list of accessions can be processed in two parts.  Running
    stage 1 on the first part and then on the second gives two tables whose
    rows, put one after the other, are the rows of the table of a single
    run on the whole list. *)
Theorem protein_lists_compose (l1 l2 : list string) (w : world) :
  exists w1 w2 w' df1 df2 df,
    get_protein_information net l1 w = (Ret (List.length (heap w)), w1) /\
    heap w1 = heap w ++ [df1] /\
    get_protein_information net l2 w1 = (Ret (S (List.length (heap w))), w2) /\
    heap w2 = heap w ++ [df1; df2] /\
    get_protein_information net (l1 ++ l2) w = (Ret (List.length (heap w)), w') /\
    heap w' = heap w ++ [df] /\
    rows df = rows df1 ++ rows df2.
Proof.
  destruct (get_protein_information_run net l1 w) as [out1 H1].
  destruct (get_protein_information_run net l2
              (mkWorld (sent w ++ map GetProtein l1) (stdout w ++ out1)
                 (heap w ++ [frame_of_dicts (resolved net (List.length (sent w)) l1)])
                 (fs w))) as [out2 H2].
  destruct (get_protein_information_run net (l1 ++ l2) w) as [out H].
  cbn [sent heap stdout fs] in H2.
  eexists _, _, _, _, _, _.
  split; [exact H1 |]. split; [reflexivity |].
  split; [rewrite H2; by rewrite length_app, Nat.add_1_r |].
  split; [cbn [heap]; by rewrite <- app_assoc |].
  split; [exact H |]. split; [reflexivity |].
  rewrite !protein_frame. cbn [rows]. rewrite <- map_app. f_equal.
  unfold resolved. rewrite protein_attempts_app, flat_map_app.
  by rewrite length_app, length_map.
Qed.

End MoreStage1.

(** X3: a response that has the five paths the script reads always gives a
    record, whatever else it holds: the record is built exactly when the
    paths are there. *)
Theorem protein_record_complete
  (accession : string) (j name gene scientific common mass : pyval)
  (p r f gs g n o ns n0 n1 s : pyval) :
  field "protein" j p -> field "recommendedName" p r ->
  field "fullName" r f -> field "value" f name ->
  field "gene" j gs -> entry 0 gs g -> field "name" g n -> field "value" n gene ->
  field "organism" j o -> field "names" o ns ->
  entry 0 ns n0 -> field "value" n0 scientific ->
  entry 1 ns n1 -> field "value" n1 common ->
  field "sequence" j s -> field "mass" s mass ->
  protein_info accession j =
  Ret [(col_accession, PStr accession); (col_name, name); (col_gene, gene);
       (col_scientific, scientific); (col_common, common); (col_weight, mass)].
Proof.
  intros Hp Hr Hf Hname Hgs Hg Hn Hgene Ho Hns Hn0 Hsci Hn1 Hcom Hs Hmass.
  assert (E1 : subscripts j [Key "protein"; Key "recommendedName"; Key "fullName";
                             Key "value"] = Ret name).
  { apply subscripts_key. exists p. split; [done |].
    apply subscripts_key. exists r. split; [done |].
    apply subscripts_key. exists f. split; [done |].
    apply subscripts_key. exists name. split; [done |]. by apply subscripts_nil. }
  assert (E2 : subscripts j [Key "gene"; Idx 0; Key "name"; Key "value"] = Ret gene).
  { apply subscripts_key. exists gs. split; [done |].
    apply (subscripts_index_key gs gene 0). exists g, n. split; [done |]. split; [done |].
    apply subscripts_key. exists gene. split; [done |]. by apply subscripts_nil. }
  assert (E3 : subscripts j [Key "organism"; Key "names"; Idx 0; Key "value"]
               = Ret scientific).
  { apply subscripts_key. exists o. split; [done |].
    apply subscripts_key. exists ns. split; [done |].
    apply (subscripts_index_key ns scientific 0). exists n0, scientific.
    split; [done |]. split; [done |]. by apply subscripts_nil. }
  assert (E4 : subscripts j [Key "organism"; Key "names"; Idx 1; Key "value"]
               = Ret common).
  { apply subscripts_key. exists o. split; [done |].
    apply subscripts_key. exists ns. split; [done |].
    apply (subscripts_index_key ns common 1). exists n1, common.
    split; [done |]. split; [done |]. by apply subscripts_nil. }
  assert (E5 : subscripts j [Key "sequence"; Key "mass"] = Ret mass).
  { apply subscripts_key. exists s. split; [done |].
    apply subscripts_key. exists mass. split; [done |]. by apply subscripts_nil. }
  unfold protein_info. rewrite E1, E2, E3, E4, E5. done.
Qed.

(** X4: a protein whose organism lists fewer than two names gives no
    record: the script reads the second entry as the common name, and the
    accession is skipped when there is none. *)
Theorem short_name_list_is_skipped
  (accession : string) (j o : pyval) (names : list pyval) :
  field "organism" j o -> field "names" o (PList names) ->
  (List.length names < 2)%nat ->
  is_ret (protein_info accession j) = false.
Proof.
  intros Ho Hns Hlen. destruct (protein_info accession j) as [d|e] eqn:E; [|done].
  exfalso. apply protein_info_inv in E as (?&?&?&common&?&_&_&_&Hc&_&_).
  apply subscripts_key in Hc as (o' & Ho' & Hc).
  apply subscripts_key in Hc as (ns' & Hns' & Hc).
  apply (subscripts_index_key ns' common 1) in Hc as (n1 & cv & Hn1 & _ & _).
  rewrite (field_unique _ _ _ _ Ho' Ho) in Hns'.
  rewrite (field_unique _ _ _ _ Hns' Hns) in Hn1.
  destruct Hn1 as (xs & [= <-] & Hx). apply lookup_lt_Some in Hx. lia.
Qed.

(** X5: a protein without a gene, be it that the response has no [gene]
    key or that the list under it is empty, gives no record. *)
Theorem protein_without_gene_is_skipped
  (accession : string) (items : list (string * pyval)) :
  assoc "gene" items = None \/ assoc "gene" items = Some (PList []) ->
  is_ret (protein_info accession (PDict items)) = false.
Proof.
  intros Hgene. destruct (protein_info accession (PDict items)) as [d|e] eqn:E; [|done].
  exfalso. apply protein_info_inv in E as (?&gene&?&?&?&_&Hg&_&_&_&_).
  apply subscripts_key in Hg as (gs & (items' & [= <-] & Hgs) & Hg).
  apply (subscripts_index_key gs gene 0) in Hg as (g & n & (xs & -> & Hx) & _ & _).
  destruct Hgene as [Hno|Hempty]; [congruence |].
  rewrite Hgs in Hempty. by injection Hempty as ->.
Qed.

(** ** Stage 2 *)

Lemma omap_all {A B} (f : A -> option B) (l : list A) :
  Forall (fun x => is_Some (f x)) l -> Forall2 (fun x y => f x = Some y) l (omap f l).
Proof.
  induction 1 as [|x l [y Hy] _ IH];
    [constructor |].
  change (omap f (x :: l)) with (match f x with
                                 | Some y => y :: omap f l
                                 | None => omap f l
                                 end).
  rewrite Hy. by constructor.
Qed.

Lemma zip_unnamed (species genes : list pyval) :
  List.length species = List.length genes ->
  Exists (fun v => py_lower v = Raise AttributeError) species ->
  Exists unnamed (zip species genes).
Proof.
  intros Hlen Hex. revert genes Hlen.
  induction Hex as [v species Hv|v species _ IH]; intros [|g genes] Hlen; try done.
  - by left.
  - right. apply IH. simpl in Hlen. lia.
Qed.

Section MoreStage2.

Variable net : nat -> request -> reply.

(** The loop of stage 2 in numbers: it sends at most one request per row,
    none for a row without a name, and collects at most one identifier per
    request. *)
Lemma xref_loop_counts (table : list (pyval * pyval)) (ids : list pyval) (w : world) :
  exists more rqs w',
    for_each table (xref_step net) ids w = (Ret (ids ++ more), w') /\
    sent w' = sent w ++ rqs /\
    (List.length more <= List.length rqs)%nat /\
    (List.length rqs <= List.length table)%nat /\
    (Exists unnamed table -> (List.length rqs < List.length table)%nat) /\
    heap w' = heap w /\ fs w' = fs w.
Proof.
  revert ids w. induction table as [|[species gene] table IH]; intros ids w.
  - exists [], [], w. simpl. rewrite !app_nil_r. repeat split; try done.
    intros H. by apply Exists_nil in H.
  - cbn [for_each]. unfold mbind, M_bind.
    destruct (py_lower_cases species) as [[s ->]|Hno].
    + destruct (xref_step_named net ids s gene w) as [out ->].
      destruct (IH (ids ++ keep (xref_attempt
                      (net (List.length (sent w)) (GetXrefsSymbol (lower s) gene))))
                  (mkWorld (sent w ++ [GetXrefsSymbol (lower s) gene]) (stdout w ++ out)
                     (heap w) (fs w)))
        as (more & rqs & w' & -> & Hsent & Hm & Hr & Hex & Hheap & Hfs).
      eexists (_ ++ more), (GetXrefsSymbol (lower s) gene :: rqs), w'.
      rewrite app_assoc. split; [done |].
      split; [by rewrite Hsent; cbn [sent]; rewrite <- app_assoc |].
      split; [rewrite length_app; destruct (xref_attempt _); simpl; lia |].
      split; [simpl; lia |]. split; [|done].
      intros H. apply Exists_cons in H as [H|H]; [done |].
      apply Hex in H. simpl. lia.
    + destruct (xref_step_unnamed net ids species gene w Hno) as [out ->].
      destruct (IH ids (mkWorld (sent w) (stdout w ++ out) (heap w) (fs w)))
        as (more & rqs & w' & -> & Hsent & Hm & Hr & Hex & Hheap & Hfs).
      exists more, rqs, w'. split; [done |]. split; [done |]. split; [done |].
      split; [simpl; lia |]. split; [|done]. intros _. simpl. lia.
Qed.

(** The three ways a call of [get_ensembl_gene_ids] can end. *)
Lemma get_ensembl_gene_ids_ends (r : ref) (w w' : world) (o : outcome ref) :
  get_ensembl_gene_ids net r w = (o, w') ->
  fs w' = fs w /\
  (o = Ret r \/
   ((o = Raise KeyError \/ o = Raise ValueError) /\ heap w' = heap w)).
Proof.
  unfold get_ensembl_gene_ids, mbind, M_bind, print, frame_getitem, frame_setitem,
    mret, M_ret.
  rewrite !(deref_same_heap r _ w) by done.
  destruct (frame_column col_scientific (deref r w)) as [species|e] eqn:Es.
  2:{ apply frame_column_raises in Es as ->. intros [= <- <-]. split; [done |].
      right. split; [by left | done]. }
  destruct (frame_column col_gene (deref r w)) as [genes|e] eqn:Eg.
  2:{ apply frame_column_raises in Eg as ->. intros [= <- <-]. split; [done |].
      right. split; [by left | done]. }
  match goal with
  | |- context [for_each ?t ?f ?a ?w0] =>
      destruct (xref_loop_frames net t a w0) as (ids & w1 & -> & _ & Hheap & Hfs)
  end.
  cbn [app heap fs] in *. rewrite (deref_same_heap r w1 w) by done.
  destruct (frame_assign col_ensembl ids (deref r w)) as [df'|e] eqn:Ea.
  - intros [= <- <-]. split; [done | by left].
  - apply frame_assign_raises in Ea as ->. intros [= <- <-]. split; [done |].
    right. split; [by right | done].
Qed.

(** X6: a call of [get_ensembl_gene_ids] ends in one of three ways: it
    returns the reference it was given, it raises [KeyError] (a column it
    reads is missing) or it raises [ValueError] (the column assignment).
    It never exits, it never changes a file, and when it raises the frames
    are as they were: no table is left with part of the column. *)
Theorem cross_reference_outcomes (r : ref) (w w' : world) (o : outcome ref) :
  get_ensembl_gene_ids net r w = (o, w') ->
  fs w' = fs w /\
  (o = Ret r \/
   ((o = Raise KeyError \/ o = Raise ValueError) /\ heap w' = heap w)).
Proof. apply get_ensembl_gene_ids_ends. Qed.

(** X7: when every lookup succeeds, stage 2 does what it is meant to do.
    On a table of protein records without an identifier column, where
    every reply has a first identifier, the call returns the table with
    the identifier column added: row [i] gains the identifier of the reply
    to the lookup of row [i]. *)
Theorem all_lookups_succeed
  (r : ref) (df : DataFrame) (names : list string) (genes : list pyval) (w : world) :
  heap w !! r = Some df ->
  frame_column col_scientific df = Ret (map PStr names) ->
  frame_column col_gene df = Ret genes ->
  index_of col_ensembl (columns df) = None ->
  Forall (fun rp => is_Some (first_id rp))
    (replies net (List.length (sent w)) (lookups names genes)) ->
  exists ids w',
    get_ensembl_gene_ids net r w = (Ret r, w') /\
    Forall2 (fun rp id => first_id rp = Some id)
      (replies net (List.length (sent w)) (lookups names genes)) ids /\
    List.length ids = List.length (rows df) /\
    heap w' = <[r := mkDataFrame (columns df ++ [col_ensembl])
                       (zip_with (fun row id => row ++ [id]) (rows df) ids)]> (heap w).
Proof.
  intros Hr Hs Hg Hc Hall.
  pose proof (omap_all first_id _ Hall) as H2.
  assert (Hlen : List.length (omap first_id
                    (replies net (List.length (sent w)) (lookups names genes)))
                 = List.length (rows df)).
  { rewrite <- (Forall2_length _ _ _ H2).
    unfold replies, lookups. rewrite length_imap, length_zip_with.
    apply frame_column_length in Hs, Hg. rewrite length_map in Hs. lia. }
  exists (omap first_id (replies net (List.length (sent w)) (lookups names genes))).
  unfold get_ensembl_gene_ids, mbind, M_bind, print, frame_getitem, frame_setitem,
    mret, M_ret.
  rewrite !(deref_lookup r df) by exact Hr. rewrite Hs, Hg.
  match goal with
  | |- context [for_each _ _ [] ?w0] =>
      destruct (xref_loop_named net names genes [] w0) as [out ->]
  end.
  cbn [app heap sent]. rewrite (deref_lookup r df) by exact Hr.
  rewrite (frame_assign_ok _ _ _ Hc Hlen). by eexists.
Qed.

(** What a call that returns has sent and stored. *)
Lemma get_ensembl_gene_ids_served (r r' : ref) (df : DataFrame) (w w' : world) :
  heap w !! r = Some df ->
  well_formed df ->
  index_of col_ensembl (columns df) = None ->
  get_ensembl_gene_ids net r w = (Ret r', w') ->
  exists rqs ids,
    sent w' = sent w ++ rqs /\
    List.length rqs = List.length (rows df) /\
    List.length ids = List.length (rows df) /\
    frame_getitem r' col_ensembl w' = (Ret ids, w').
Proof.
  intros Hr Hwf Hc.
  unfold get_ensembl_gene_ids, mbind, M_bind, print, frame_getitem, frame_setitem,
    mret, M_ret.
  rewrite !(deref_lookup r df) by exact Hr.
  destruct (frame_column col_scientific df) as [species|] eqn:Es; [|done].
  destruct (frame_column col_gene df) as [genes|] eqn:Eg; [|done].
  match goal with
  | |- context [for_each ?t ?f ?a ?w0] =>
      destruct (xref_loop_counts t a w0)
        as (ids & rqs & w1 & -> & Hsent & Hm & Hrq & _ & Hheap & Hfs)
  end.
  cbn [app heap fs sent] in *. rewrite (deref_lookup r df) by (by rewrite Hheap).
  destruct (frame_assign col_ensembl ids df) as [df'|] eqn:Ea; [|done].
  intros [= <- <-]. cbn [sent heap].
  apply frame_column_length in Es, Eg. rewrite length_zip in Hrq.
  apply frame_assign_new in Ea as [Hlen ->]; [|done | lia].
  exists rqs, ids. split; [done |]. split; [lia |]. split; [done |].
  rewrite (deref_lookup r (mkDataFrame (columns df ++ [col_ensembl])
                             (zip_with (fun row v => row ++ [v]) (rows df) ids))).
  - by rewrite column_read_back.
  - cbn [heap]. rewrite Hheap. apply list_lookup_insert_eq. by apply lookup_lt_Some in Hr.
Qed.

(** X8: a call of [get_ensembl_gene_ids] that returns has sent exactly as
    many requests as the table has rows and stored one identifier per row:
    the identifier column can be read back from the returned table, as
    [__main__] does, and has one entry per row. *)
Theorem returning_call_served_every_row
  (r r' : ref) (df : DataFrame) (w w' : world) :
  heap w !! r = Some df ->
  well_formed df ->
  index_of col_ensembl (columns df) = None ->
  get_ensembl_gene_ids net r w = (Ret r', w') ->
  exists rqs ids,
    sent w' = sent w ++ rqs /\
    List.length rqs = List.length (rows df) /\
    List.length ids = List.length (rows df) /\
    frame_getitem r' col_ensembl w' = (Ret ids, w').
Proof. apply get_ensembl_gene_ids_served. Qed.

(** X9: a row whose organism cell is not a string (a missing value, a
    number) is fatal for stage 2: no request is sent for the row, nothing
    is collected for it, and the column assignment raises [ValueError]. *)
Theorem unnamed_organism_raises
  (r : ref) (df : DataFrame) (species genes : list pyval) (w : world) :
  heap w !! r = Some df ->
  frame_column col_scientific df = Ret species ->
  frame_column col_gene df = Ret genes ->
  Exists (fun v => py_lower v = Raise AttributeError) species ->
  exists w',
    get_ensembl_gene_ids net r w = (Raise ValueError, w') /\
    heap w' = heap w /\
    (List.length (sent w') < List.length (sent w) + List.length (rows df))%nat.
Proof.
  intros Hr Hs Hg Hex.
  unfold get_ensembl_gene_ids, mbind, M_bind, print, frame_getitem, frame_setitem,
    mret, M_ret.
  rewrite !(deref_lookup r df) by exact Hr. rewrite Hs, Hg.
  match goal with
  | |- context [for_each ?t ?f ?a ?w0] =>
      destruct (xref_loop_counts t a w0)
        as (ids & rqs & w1 & -> & Hsent & Hm & Hrq & Hlt & Hheap & Hfs)
  end.
  cbn [app heap fs sent] in *. rewrite (deref_lookup r df) by (by rewrite Hheap).
  apply frame_column_length in Hs as Hls. apply frame_column_length in Hg as Hlg.
  specialize (Hlt (zip_unnamed species genes ltac:(lia) Hex)).
  rewrite length_zip in Hlt.
  rewrite frame_assign_short by lia.
  eexists. split; [done |]. split; [done |]. rewrite Hsent, length_app. lia.
Qed.

End MoreStage2.

(** ** Stage 3 *)

Lemma annotated_object (items : list (string * pyval)) (id : pyval) :
  annotated (PDict items) id ->
  exists s e, id = PStr s /\ assoc s items = Some (PDict e).
Proof.
  intros (dsc & reg & entry & Hget & (e & -> & _) & _).
  destruct id; simpl in Hget; try done.
  destruct (assoc s items) as [v|] eqn:E; [|done].
  injection Hget as ->. by exists s, e.
Qed.

Section MoreStage3.

Variable net : nat -> request -> reply.

(** X10: whatever the reply, [get_gene_data] sends exactly one request, the
    lookup of the whole identifier list as it was given.  It then either
    returns a new table or leaves through [sys.exit()]: no exception of the
    [try] block reaches the caller.  It changes no file and no frame that
    exists. *)
Theorem gene_data_outcomes (ids : list pyval) (w w' : world) (o : outcome ref) :
  get_gene_data net ids w = (o, w') ->
  sent w' = sent w ++ [PostLookupId ids] /\
  fs w' = fs w /\
  ((o = Raise (SystemExit None) /\ heap w' = heap w) \/
   (o = Ret (List.length (heap w)) /\ exists df, heap w' = heap w ++ [df])).
Proof.
  destruct (get_gene_data_run net ids w) as [out ->].
  destruct (batch ids _); intros [= <- <-]; cbn [sent fs heap];
    split; try done; split; try done.
  - right. split; [done | by eexists].
  - by left.
Qed.

(** X11: with a JSON object as response, every submitted identifier must be
    a string that is a key of the object with an object as its entry.  One
    identifier that is not a string (a missing value) or whose entry is not
    an object (the null the service sends for an unknown identifier) makes
    the whole call leave through [sys.exit()]. *)
Theorem unannotatable_identifier_exits
  (ids : list pyval) (w : world) (status : Z) (items : list (string * pyval)) :
  net (List.length (sent w)) (PostLookupId ids) = Reply status (Some (PDict items)) ->
  error_status status = false ->
  Exists (fun id => ~ exists s e, id = PStr s /\ assoc s items = Some (PDict e)) ids ->
  exists w',
    get_gene_data net ids w = (Raise (SystemExit None), w') /\
    heap w' = heap w /\ fs w' = fs w.
Proof.
  intros Hnet Hok Hex.
  apply (gene_table_exit net ids w status (PDict items) Hnet Hok).
  eapply Exists_impl; [exact Hex |].
  intros id Hno Han. apply Hno. by apply annotated_object.
Qed.

End MoreStage3.

(** ** The whole run *)

Lemma merge_outer_raises (on : string) (left right : DataFrame) (e : pyexc) :
  merge_outer on left right = Raise e -> e = KeyError \/ e = TypeError.
Proof.
  unfold merge_outer.
  destruct (index_of on (columns left)); [|by intros [= <-]; left].
  destruct (index_of on (columns right)); [|by intros [= <-]; left].
  destruct (forallb _ _ && forallb _ _); [done | by intros [= <-]; right].
Qed.

Lemma frame_merge_ends (l r : ref) (on : string) (w w' : world) (o : outcome ref) :
  frame_merge l r on w = (o, w') ->
  sent w' = sent w /\ fs w' = fs w /\
  ((exists r', o = Ret r') \/ o = Raise KeyError \/ o = Raise TypeError).
Proof.
  unfold frame_merge, new_frame.
  destruct (merge_outer on (deref l w) (deref r w)) as [df|e] eqn:E;
    intros [= <- <-]; cbn [sent fs]; split; try done; split; try done.
  - left. by eexists.
  - right. apply merge_outer_raises in E as [->| ->]; [by left | by right].
Qed.

Section MorePipeline.

Variable net : nat -> request -> reply.

(** X12: the script writes at most one file, and only at its very end.  A
    run ends in one of three ways: it completes, and then the output file,
    and no other, was created or overwritten; it leaves through
    [sys.exit()] in stage 3; or an exception goes uncaught.  In the last
    two cases no file was touched.  The exit status is 0 in the first two
    cases and 1 in the third. *)
Theorem run_writes_one_file_or_none
  (files : gmap string DataFrame) (o : outcome unit) (w' : world) :
  main net (initial_world files) = (o, w') ->
  (o = Ret tt /\ exit_status o = 0%Z /\
   exists df, fs w' = <[outfile := df]> files) \/
  (o = Raise (SystemExit None) /\ exit_status o = 0%Z /\ fs w' = files) \/
  (exists e, o = Raise e /\ is_Exception e = true /\
             exit_status o = 1%Z /\ fs w' = files).
Proof.
  unfold main, mbind, M_bind.
  destruct (get_protein_information_run net accessions (initial_world files))
    as [out1 ->].
  destruct (get_ensembl_gene_ids net _ _) as [o2 w2] eqn:E2.
  apply get_ensembl_gene_ids_ends in E2 as [Hfs2 Ho2]. cbn [fs initial_world] in Hfs2.
  destruct Ho2 as [->|[[->| ->] _]].
  2,3: intros [= <- <-]; right; right; by eexists.
  unfold frame_getitem at 1.
  destruct (frame_column col_ensembl _) as [ids|e] eqn:E3.
  2:{ apply frame_column_raises in E3 as ->. intros [= <- <-].
      right; right. by eexists. }
  destruct (get_gene_data_run net ids w2) as [out3 ->].
  destruct (batch ids _).
  2:{ intros [= <- <-]. right; left. done. }
  destruct (frame_merge _ _ _ _) as [o4 w4] eqn:E4.
  apply frame_merge_ends in E4 as (_ & Hfs4 & Ho4). cbn [fs] in Hfs4.
  destruct Ho4 as [[r4 ->]|[->| ->]].
  2,3: intros [= <- <-]; right; right; eexists; repeat split; try done;
       by rewrite Hfs4, Hfs2.
  unfold print, to_excel. intros [= <- <-]. left. cbn [fs].
  split; [done |]. split; [done |]. eexists. by rewrite Hfs4, Hfs2.
Qed.

(** X13: when nothing resolves, the empty accession list included, the
    table of stage 1 has no column, and stage 2 raises [KeyError] on it
    before it sends any request: the two stages together have sent the
    protein lookups and nothing else, and no file is touched. *)
Theorem nothing_resolved_is_fatal (accs : list string) (w : world) :
  resolved net (List.length (sent w)) accs = [] ->
  exists r w1 w2,
    get_protein_information net accs w = (Ret r, w1) /\
    get_ensembl_gene_ids net r w1 = (Raise KeyError, w2) /\
    sent w2 = sent w ++ map GetProtein accs /\
    heap w2 = heap w ++ [empty_frame] /\ fs w2 = fs w.
Proof.
  intros Hnone.
  destruct (get_protein_information_run net accs w) as [out ->]. rewrite Hnone.
  eexists _, _, _. split; [reflexivity |].
  unfold get_ensembl_gene_ids, mbind, M_bind, print, frame_getitem.
  rewrite (deref_lookup _ empty_frame)
    by (cbn [heap]; by rewrite lookup_app_r, Nat.sub_diag).
  by cbn.
Qed.

End MorePipeline.

(** ** Running stage 2 on a table that has the identifier column *)

Lemma index_of_lookup (c : string) (cols : list string) (i : nat) :
  index_of c cols = Some i -> cols !! i = Some c.
Proof.
  revert i. induction cols as [|c' rest IH]; intros i; simpl; [done |].
  destruct (String.eqb_spec c c') as [->|Hne].
  - by intros [= <-].
  - destruct (index_of c rest) as [j|]; simpl; [|done].
    intros [= <-]. simpl. by apply IH.
Qed.

(** Assigning a column the frame has already, with no more values than
    rows: the labels stay and the cells of that column are replaced. *)
Lemma frame_assign_existing
  (c : string) (i : nat) (values : list pyval) (df df' : DataFrame) :
  index_of c (columns df) = Some i ->
  (List.length values <= List.length (rows df))%nat ->
  frame_assign c values df = Ret df' ->
  List.length values = List.length (rows df) /\
  df' = mkDataFrame (columns df)
          (zip_with (fun row v => <[i := v]> row) (rows df) values).
Proof.
  intros Hc Hlen. unfold frame_assign. rewrite Hc.
  assert (Hbase : match rows df, values with
                  | [], _ :: _ => map (fun _ => map (fun _ => PNaN) (columns df)) values
                  | rs, _ => rs
                  end = rows df).
  { destruct (rows df); [|done]. destruct values; [done | simpl in Hlen; lia]. }
  rewrite Hbase.
  destruct (Nat.eqb_spec (List.length values) (List.length (rows df))) as [Heq|Hne];
    simpl; [|done].
  by intros [= <-].
Qed.

Lemma replaced_column_reads_back (i : nat) (n : nat) (rs : list (list pyval))
  (values : list pyval) :
  (i < n)%nat ->
  Forall (fun row => List.length row = n) rs ->
  List.length values = List.length rs ->
  map (cell i) (zip_with (fun row v => <[i := v]> row) rs values) = values.
Proof.
  intros Hi Hwf. revert values.
  induction Hwf as [|row rs Hrow _ IH]; intros [|v values] Hlen; try done.
  simpl. f_equal.
  - unfold cell. rewrite list_lookup_insert_eq by lia. done.
  - apply IH. simpl in Hlen. lia.
Qed.

Lemma other_column_is_kept (i j : nat) (rs : list (list pyval)) (values : list pyval) :
  i <> j ->
  List.length values = List.length rs ->
  map (cell j) (zip_with (fun row v => <[i := v]> row) rs values) = map (cell j) rs.
Proof.
  intros Hij. revert values.
  induction rs as [|row rs IH]; intros [|v values] Hlen; try done.
  simpl. f_equal.
  - unfold cell. by rewrite list_lookup_insert_ne.
  - apply IH. simpl in Hlen. lia.
Qed.

(** ** The further properties on sample runs *)

Lemma protein_record_complete_witness :
  protein_info "P04637"
    (sample_protein "Cellular tumor antigen p53" "TP53" "Homo sapiens" "Human" 43653)
  = Ret [(col_accession, PStr "P04637"); (col_name, PStr "Cellular tumor antigen p53");
         (col_gene, PStr "TP53"); (col_scientific, PStr "Homo sapiens");
         (col_common, PStr "Human"); (col_weight, PInt 43653)].
Proof.
  eapply protein_record_complete; eexists; (split; [reflexivity |]); reflexivity.
Defined.

Lemma short_name_list_is_skipped_witness :
  (List.length [PDict [("type", PStr "scientific");
                       ("value", PStr "Escherichia coli (strain K12)")]] < 2)%nat /\
  is_ret (protein_info "P00722" single_name_protein) = false.
Proof.
  split; [simpl; lia |].
  eapply (short_name_list_is_skipped "P00722" single_name_protein).
  - eexists. split; reflexivity.
  - eexists. split; reflexivity.
  - simpl. lia.
Defined.

Lemma protein_without_gene_is_skipped_witness :
  assoc "gene" geneless_items = None /\
  is_ret (protein_info "A0A024R161" (PDict geneless_items)) = false.
Proof.
  split; [reflexivity |].
  apply protein_without_gene_is_skipped. left. reflexivity.
Defined.

Lemma cross_reference_outcomes_witness :
  get_ensembl_gene_ids xrefs_down_net 0%nat one_protein_world
    = (Raise ValueError, snd (get_ensembl_gene_ids xrefs_down_net 0%nat one_protein_world)) /\
  fs (snd (get_ensembl_gene_ids xrefs_down_net 0%nat one_protein_world)) = ∅ /\
  (Raise ValueError = Ret 0%nat \/
   ((@Raise ref ValueError = Raise KeyError \/ @Raise ref ValueError = Raise ValueError) /\
    heap (snd (get_ensembl_gene_ids xrefs_down_net 0%nat one_protein_world))
      = [one_protein])).
Proof.
  assert (H : get_ensembl_gene_ids xrefs_down_net 0%nat one_protein_world
              = (Raise ValueError,
                 snd (get_ensembl_gene_ids xrefs_down_net 0%nat one_protein_world)))
    by reflexivity.
  split; [exact H |].
  exact (cross_reference_outcomes xrefs_down_net 0%nat one_protein_world _ _ H).
Defined.

Lemma all_lookups_succeed_witness :
  Forall (fun rp => is_Some (first_id rp))
    (replies sample_net 0 (lookups ["Homo sapiens"] [PStr "TP53"])) /\
  exists ids w',
    get_ensembl_gene_ids sample_net 0%nat one_protein_world = (Ret 0%nat, w') /\
    Forall2 (fun rp id => first_id rp = Some id)
      (replies sample_net 0 (lookups ["Homo sapiens"] [PStr "TP53"])) ids /\
    List.length ids = 1%nat /\
    heap w' = <[0%nat := mkDataFrame (columns one_protein ++ [col_ensembl])
                           (zip_with (fun row id => row ++ [id]) (rows one_protein) ids)]>
                [one_protein].
Proof.
  assert (H : Forall (fun rp => is_Some (first_id rp))
                (replies sample_net 0 (lookups ["Homo sapiens"] [PStr "TP53"]))).
  { repeat constructor. by eexists. }
  split; [exact H |].
  exact (all_lookups_succeed sample_net 0%nat one_protein ["Homo sapiens"] [PStr "TP53"]
           one_protein_world eq_refl eq_refl eq_refl eq_refl H).
Defined.

Lemma any_failed_lookup_raises_witness :
  Exists (fun rp => first_id rp = None)
    (replies xrefs_down_net 0 (lookups ["Homo sapiens"] [PStr "TP53"])) /\
  exists w',
    get_ensembl_gene_ids xrefs_down_net 0%nat one_protein_world = (Raise ValueError, w') /\
    heap w' = [one_protein].
Proof.
  assert (H : Exists (fun rp => first_id rp = None)
                (replies xrefs_down_net 0 (lookups ["Homo sapiens"] [PStr "TP53"])))
    by (left; reflexivity).
  split; [exact H |].
  exact (any_failed_lookup_raises xrefs_down_net 0%nat one_protein ["Homo sapiens"]
           [PStr "TP53"] one_protein_world eq_refl eq_refl eq_refl H).
Defined.

Lemma well_formed_one_protein : well_formed one_protein.
Proof. repeat constructor. Defined.

Lemma returning_call_served_every_row_witness :
  get_ensembl_gene_ids sample_net 0%nat one_protein_world
    = (Ret 0%nat, snd (get_ensembl_gene_ids sample_net 0%nat one_protein_world)) /\
  exists rqs ids,
    sent (snd (get_ensembl_gene_ids sample_net 0%nat one_protein_world)) = [] ++ rqs /\
    List.length rqs = 1%nat /\
    List.length ids = 1%nat /\
    frame_getitem 0%nat col_ensembl
      (snd (get_ensembl_gene_ids sample_net 0%nat one_protein_world))
    = (Ret ids, snd (get_ensembl_gene_ids sample_net 0%nat one_protein_world)).
Proof.
  assert (H : get_ensembl_gene_ids sample_net 0%nat one_protein_world
              = (Ret 0%nat, snd (get_ensembl_gene_ids sample_net 0%nat one_protein_world)))
    by reflexivity.
  split; [exact H |].
  exact (returning_call_served_every_row sample_net 0%nat 0%nat one_protein
           one_protein_world _ eq_refl well_formed_one_protein eq_refl H).
Defined.

Lemma unnamed_organism_raises_witness :
  Exists (fun v => py_lower v = Raise AttributeError) [PNaN] /\
  exists w',
    get_ensembl_gene_ids sample_net 0%nat nameless_world = (Raise ValueError, w') /\
    heap w' = heap nameless_world /\
    (List.length (sent w') < 0 + 1)%nat.
Proof.
  assert (H : Exists (fun v => py_lower v = Raise AttributeError) [PNaN])
    by (left; reflexivity).
  split; [exact H |].
  exact (unnamed_organism_raises sample_net 0%nat _ [PNaN] [PStr "TP53"] nameless_world
           eq_refl eq_refl eq_refl H).
Defined.

Lemma gene_data_outcomes_witness :
  get_gene_data sample_net sample_ids (initial_world ∅)
    = (Ret 0%nat, snd (get_gene_data sample_net sample_ids (initial_world ∅))) /\
  sent (snd (get_gene_data sample_net sample_ids (initial_world ∅)))
    = [] ++ [PostLookupId sample_ids] /\
  fs (snd (get_gene_data sample_net sample_ids (initial_world ∅))) = ∅.
Proof.
  assert (H : get_gene_data sample_net sample_ids (initial_world ∅)
              = (Ret 0%nat, snd (get_gene_data sample_net sample_ids (initial_world ∅))))
    by reflexivity.
  split; [exact H |].
  destruct (gene_data_outcomes sample_net sample_ids (initial_world ∅) _ _ H)
    as (Hsent & Hfs & _).
  split; [exact Hsent | exact Hfs].
Defined.

Lemma unannotatable_identifier_exits_witness :
  null_entry_net 0 (PostLookupId [PStr "ENSG00000000000"])
    = Reply 200 (Some (PDict [("ENSG00000000000", PNone)])) /\
  exists w',
    get_gene_data null_entry_net [PStr "ENSG00000000000"] (initial_world ∅)
      = (Raise (SystemExit None), w') /\
    heap w' = [] /\ fs w' = ∅.
Proof.
  split; [reflexivity |].
  apply (unannotatable_identifier_exits null_entry_net [PStr "ENSG00000000000"]
           (initial_world ∅) 200 [("ENSG00000000000", PNone)] eq_refl eq_refl).
  left. intros (s & e & [= <-] & He). simpl in He. discriminate He.
Defined.

Lemma run_writes_one_file_or_none_witness :
  main sample_net (initial_world ∅)
    = (Ret tt, snd (main sample_net (initial_world ∅))) /\
  exists df, fs (snd (main sample_net (initial_world ∅))) = <[outfile := df]> ∅.
Proof.
  assert (H : main sample_net (initial_world ∅)
              = (Ret tt, snd (main sample_net (initial_world ∅))))
    by (vm_compute; reflexivity).
  split; [exact H |].
  destruct (run_writes_one_file_or_none sample_net ∅ _ _ H)
    as [(_ & _ & Hdf)|[(Ho & _)|(e & Ho & _)]];
    [exact Hdf | discriminate Ho | discriminate Ho].
Defined.

Lemma nothing_resolved_is_fatal_witness :
  resolved protein_down_net 0 accessions = [] /\
  exists r w1 w2,
    get_protein_information protein_down_net accessions (initial_world ∅) = (Ret r, w1) /\
    get_ensembl_gene_ids protein_down_net r w1 = (Raise KeyError, w2) /\
    sent w2 = [] ++ map GetProtein accessions /\
    heap w2 = [] ++ [empty_frame] /\ fs w2 = ∅.
Proof.
  split; [reflexivity |].
  exact (nothing_resolved_is_fatal protein_down_net accessions (initial_world ∅) eq_refl).
Defined.

Lemma well_formed_crossref_ABC : well_formed crossref_ABC.
Proof. repeat constructor. Defined.

(** * Stage 2 on any table *)

Lemma named_lookups_cons_named (s : string) (gene : pyval) (table : list (pyval * pyval)) :
  named_lookups ((PStr s, gene) :: table)
  = GetXrefsSymbol (lower s) gene :: named_lookups table.
Proof. reflexivity. Qed.

Lemma named_lookups_cons_unnamed (species gene : pyval) (table : list (pyval * pyval)) :
  py_lower species = Raise AttributeError ->
  named_lookups ((species, gene) :: table) = named_lookups table.
Proof. by destruct species. Qed.

(** On a table whose organism cells are all strings, there is one lookup
    per row. *)
Lemma named_lookups_all_named (names : list string) (genes : list pyval) :
  named_lookups (zip (map PStr names) genes) = lookups names genes.
Proof.
  revert genes. induction names as [|s names IH]; intros [|g genes]; try done.
  cbn [map zip zip_with]. rewrite named_lookups_cons_named, IH. done.
Qed.

Lemma named_lookups_no_longer (table : list (pyval * pyval)) :
  (List.length (named_lookups table) <= List.length table)%nat.
Proof. apply omap_no_longer. Qed.

(** When there are as many lookups as rows, every row has its lookup. *)
Lemma named_lookups_full (table : list (pyval * pyval)) :
  List.length (named_lookups table) = List.length table ->
  Forall2 (fun row rq => exists s, fst row = PStr s /\
                                   rq = GetXrefsSymbol (lower s) (snd row))
    table (named_lookups table).
Proof.
  induction table as [|[species gene] table IH]; intros Hlen; [constructor |].
  destruct (py_lower_cases species) as [[s ->]|Hno].
  - rewrite named_lookups_cons_named in *. constructor.
    + by exists s.
    + apply IH. simpl in Hlen. lia.
  - rewrite (named_lookups_cons_unnamed _ _ _ Hno) in Hlen.
    pose proof (named_lookups_no_longer table). simpl in Hlen. lia.
Qed.

Section AnyTable.

Variable net : nat -> request -> reply.

(** The loop of stage 2 on any table: the lookups of the rows that have
    one go out, in order, and the first identifiers of their replies are
    collected. *)
Lemma xref_loop_run (table : list (pyval * pyval)) (ids : list pyval) (w : world) :
  exists out,
    for_each table (xref_step net) ids w =
    (Ret (ids ++ collected net (List.length (sent w)) table),
     mkWorld (sent w ++ named_lookups table) (stdout w ++ out) (heap w) (fs w)).
Proof.
  revert ids w. induction table as [|[species gene] table IH]; intros ids w.
  - exists []. simpl. unfold mret, M_ret. rewrite !app_nil_r. by destruct w.
  - cbn [for_each]. unfold mbind, M_bind.
    destruct (py_lower_cases species) as [[s ->]|Hno].
    + destruct (xref_step_named net ids s gene w) as [out1 ->].
      destruct (IH (ids ++ keep (xref_attempt
                      (net (List.length (sent w)) (GetXrefsSymbol (lower s) gene))))
                  (mkWorld (sent w ++ [GetXrefsSymbol (lower s) gene]) (stdout w ++ out1)
                     (heap w) (fs w))) as [out2 ->].
      exists (out1 ++ out2). cbn [sent stdout heap fs].
      unfold collected. rewrite named_lookups_cons_named, replies_cons,
        xref_attempt_first_id.
      rewrite length_app. cbn [List.length]. rewrite Nat.add_1_r.
      rewrite <- !app_assoc. simpl.
      by destruct (first_id _).
    + destruct (xref_step_unnamed net ids species gene w Hno) as [out1 ->].
      destruct (IH ids (mkWorld (sent w) (stdout w ++ out1) (heap w) (fs w)))
        as [out2 ->].
      exists (out1 ++ out2). cbn [sent stdout heap fs].
      rewrite (named_lookups_cons_unnamed _ _ _ Hno).
      unfold collected. rewrite (named_lookups_cons_unnamed _ _ _ Hno).
      by rewrite <- app_assoc.
Qed.

Lemma collected_no_longer (n : nat) (table : list (pyval * pyval)) :
  (List.length (collected net n table) <= List.length (named_lookups table))%nat.
Proof.
  unfold collected. etransitivity; [apply omap_no_longer |].
  unfold replies. by rewrite length_imap.
Qed.

(** A call on a table that has both columns: the lookups go out, and the
    collected identifiers are assigned to the identifier column, which
    succeeds or raises. *)
Lemma get_ensembl_gene_ids_run
  (r : ref) (df : DataFrame) (species genes : list pyval) (w : world) :
  heap w !! r = Some df ->
  frame_column col_scientific df = Ret species ->
  frame_column col_gene df = Ret genes ->
  exists out,
    get_ensembl_gene_ids net r w =
    match frame_assign col_ensembl
            (collected net (List.length (sent w)) (zip species genes)) df with
    | Ret df' =>
        (Ret r, mkWorld (sent w ++ named_lookups (zip species genes)) (stdout w ++ out)
                  (<[r := df']> (heap w)) (fs w))
    | Raise e =>
        (Raise e, mkWorld (sent w ++ named_lookups (zip species genes)) (stdout w ++ out)
                    (heap w) (fs w))
    end.
Proof.
  intros Hr Hs Hg.
  unfold get_ensembl_gene_ids, mbind, M_bind, print, frame_getitem, frame_setitem,
    mret, M_ret.
  rewrite !(deref_lookup r df) by exact Hr. rewrite Hs, Hg.
  match goal with
  | |- context [for_each _ _ [] ?w0] =>
      destruct (xref_loop_run (zip species genes) [] w0) as [out ->]
  end.
  cbn [app heap sent stdout fs]. rewrite (deref_lookup r df) by exact Hr.
  destruct (frame_assign col_ensembl _ df) as [df'|e]; eexists; by rewrite <- app_assoc.
Qed.

(** A call on a table that lacks one of the two columns raises [KeyError]
    before the loop. *)
Lemma get_ensembl_gene_ids_no_column (r : ref) (w : world) :
  is_ret (frame_column col_scientific (deref r w))
  && is_ret (frame_column col_gene (deref r w)) = false ->
  get_ensembl_gene_ids net r w =
  (Raise KeyError,
   mkWorld (sent w) (stdout w ++ [Text "Getting Ensembl gene IDs..."]) (heap w) (fs w)).
Proof.
  intros Hno.
  unfold get_ensembl_gene_ids, mbind, M_bind, print, frame_getitem, frame_setitem,
    mret, M_ret.
  rewrite !(deref_same_heap r _ w) by done.
  destruct (frame_column col_scientific (deref r w)) as [species|e] eqn:Es.
  - destruct (frame_column col_gene (deref r w)) as [genes|e] eqn:Eg; [done |].
    apply frame_column_raises in Eg as ->. done.
  - apply frame_column_raises in Es as ->. done.
Qed.

End AnyTable.

Section AnyTableClaims.

Variable net : nat -> request -> reply.

(** C8 (amended): for every row of its input table whose organism cell is a
    string, in table order, [get_ensembl_gene_ids] sends exactly one
    cross-reference lookup, keyed by the lower-cased organism name and the
    gene symbol of the row; a row whose organism cell is not a string gets
    no lookup.  For each lookup that succeeds it collects the identifier of
    the first entry of the response list, and the collected identifiers are
    what it assigns to the identifier column.  On a table whose organism
    cells are all strings this is one lookup per row.  A table that lacks
    one of the two columns gets no lookup at all: the call raises
    [KeyError]. *)
Theorem one_lookup_per_named_row (r : ref) (df : DataFrame) (w : world) :
  heap w !! r = Some df ->
  (forall species genes,
     frame_column col_scientific df = Ret species ->
     frame_column col_gene df = Ret genes ->
     (exists w',
        get_ensembl_gene_ids net r w =
          (match frame_assign col_ensembl
                   (collected net (List.length (sent w)) (zip species genes)) df
           with
           | Ret _ => Ret r
           | Raise e => Raise e
           end, w') /\
        sent w' = sent w ++ named_lookups (zip species genes) /\
        heap w' =
          match frame_assign col_ensembl
                  (collected net (List.length (sent w)) (zip species genes)) df
          with
          | Ret df' => <[r := df']> (heap w)
          | Raise _ => heap w
          end) /\
     (forall names, species = map PStr names ->
        named_lookups (zip species genes) = lookups names genes)) /\
  (is_ret (frame_column col_scientific df) && is_ret (frame_column col_gene df) = false ->
   exists w',
     get_ensembl_gene_ids net r w = (Raise KeyError, w') /\
     sent w' = sent w /\ heap w' = heap w).
Proof.
  intros Hr. split.
  - intros species genes Hs Hg. split.
    + destruct (get_ensembl_gene_ids_run net r df species genes w Hr Hs Hg) as [out ->].
      destruct (frame_assign col_ensembl _ df); by eexists.
    + intros names ->. apply named_lookups_all_named.
  - intros Hno. rewrite <- (deref_lookup r df w Hr) in Hno.
    rewrite (get_ensembl_gene_ids_no_column net r w Hno). by eexists.
Qed.

(** What a returning call on a well-formed table without the identifier
    column has done, in full. *)
Lemma get_ensembl_gene_ids_trace (r r' : ref) (df : DataFrame) (w w' : world) :
  heap w !! r = Some df ->
  well_formed df ->
  index_of col_ensembl (columns df) = None ->
  get_ensembl_gene_ids net r w = (Ret r', w') ->
  exists species genes,
    frame_column col_scientific df = Ret species /\
    frame_column col_gene df = Ret genes /\
    Forall2 (fun row rq => exists s, fst row = PStr s /\
                                     rq = GetXrefsSymbol (lower s) (snd row))
      (zip species genes) (named_lookups (zip species genes)) /\
    List.length (collected net (List.length (sent w)) (zip species genes))
      = List.length (rows df) /\
    r' = r /\
    sent w' = sent w ++ named_lookups (zip species genes) /\
    heap w' = <[r := mkDataFrame (columns df ++ [col_ensembl])
                       (zip_with (fun row id => row ++ [id]) (rows df)
                          (collected net (List.length (sent w)) (zip species genes)))]>
                (heap w) /\
    fs w' = fs w /\
    frame_getitem r col_ensembl w'
      = (Ret (collected net (List.length (sent w)) (zip species genes)), w').
Proof.
  intros Hr Hwf Hc Hrun.
  destruct (frame_column col_scientific df) as [species|e] eqn:Es.
  2:{ rewrite get_ensembl_gene_ids_no_column in Hrun; [done |].
      by rewrite (deref_lookup r df w Hr), Es. }
  destruct (frame_column col_gene df) as [genes|e] eqn:Eg.
  2:{ rewrite get_ensembl_gene_ids_no_column in Hrun; [done |].
      rewrite (deref_lookup r df w Hr), Es, Eg. done. }
  destruct (get_ensembl_gene_ids_run net r df species genes w Hr Es Eg) as [out Hrun'].
  rewrite Hrun' in Hrun. clear Hrun'.
  set (ids := collected net (List.length (sent w)) (zip species genes)) in *.
  assert (Htable : List.length (zip species genes) = List.length (rows df)).
  { rewrite length_zip. apply frame_column_length in Es, Eg. lia. }
  pose proof (collected_no_longer net (List.length (sent w)) (zip species genes)) as Hle1.
  pose proof (named_lookups_no_longer (zip species genes)) as Hle2.
  fold ids in Hle1.
  destruct (frame_assign col_ensembl ids df) as [df'|e] eqn:Ea; [|done].
  injection Hrun as <- <-.
  apply frame_assign_new in Ea as [Hlen ->]; [|done | lia].
  exists species, genes. split; [done |]. split; [done |].
  split; [apply named_lookups_full; lia |].
  split; [done |]. split; [done |]. split; [done |]. split; [done |]. split; [done |].
  unfold frame_getitem.
  rewrite (deref_lookup r (mkDataFrame (columns df ++ [col_ensembl])
                             (zip_with (fun row v => row ++ [v]) (rows df) ids))).
  - by rewrite column_read_back.
  - cbn [heap]. apply list_lookup_insert_eq. by apply lookup_lt_Some in Hr.
Qed.

End AnyTableClaims.

Section RunAndRerun.

Variable net : nat -> request -> reply.

(** X14: the requests of a run that reaches stage 3.  When stages 1 and 2
    return, the run sends the protein lookups of the three accessions, then
    for every row of the table of stage 1, in order, one cross-reference
    lookup keyed by the lower-cased organism name and the gene symbol of
    that row, then a single batched lookup; the batch submits the
    identifier column of the table as it is, one identifier per row.
    Nothing is sent after it. *)
Theorem run_request_trace
  (files : gmap string DataFrame) (r1 r2 : ref) (w1 w2 : world) :
  get_protein_information net accessions (initial_world files) = (Ret r1, w1) ->
  get_ensembl_gene_ids net r1 w1 = (Ret r2, w2) ->
  exists df species genes rqs ids,
    heap w1 !! r1 = Some df /\
    frame_column col_scientific df = Ret species /\
    frame_column col_gene df = Ret genes /\
    List.length (zip species genes) = List.length (rows df) /\
    Forall2 (fun row rq => exists s, fst row = PStr s /\
                                     rq = GetXrefsSymbol (lower s) (snd row))
      (zip species genes) rqs /\
    List.length rqs = List.length (resolved net 0 accessions) /\
    List.length ids = List.length (resolved net 0 accessions) /\
    ids = collected net (List.length (sent w1)) (zip species genes) /\
    frame_getitem r2 col_ensembl w2 = (Ret ids, w2) /\
    sent (snd (main net (initial_world files)))
      = map GetProtein accessions ++ rqs ++ [PostLookupId ids].
Proof.
  intros H1 H2.
  destruct (get_protein_information_run net accessions (initial_world files))
    as [out1 Hrun1].
  assert (Hmain : main net (initial_world files) =
                  (let '(o, w) := get_ensembl_gene_ids net r1 w1 in
                   match o with
                   | Ret prot =>
                       (ids ← frame_getitem prot col_ensembl;
                        gene_inf_df ← get_gene_data net ids;
                        result ← frame_merge prot gene_inf_df col_ensembl;
                        print (Text ("Writing results to " ++ outfile));;
                        to_excel result outfile) w
                   | Raise e => (Raise e, w)
                   end)).
  { unfold main. unfold mbind at 1, M_bind at 1. rewrite H1.
    unfold mbind at 1, M_bind at 1. done. }
  rewrite Hrun1 in H1. injection H1 as <- <-.
  cbn [initial_world sent heap stdout fs List.length app] in *.
  set (df := frame_of_dicts (resolved net 0 accessions)) in *.
  match type of H2 with
  | get_ensembl_gene_ids _ ?r0 ?w0 = _ =>
      destruct (get_ensembl_gene_ids_trace net r0 r2 df w0 w2 eq_refl
                  (frame_of_dicts_well_formed _)
                  (protein_frame_has_no_identifier net 0 accessions) H2)
        as (species & genes & Hs & Hg & Hrqs & Hids & -> & Hsent & _ & _ & Hget)
  end.
  cbn [sent] in Hsent, Hids, Hget.
  assert (Hrows : List.length (rows df) = List.length (resolved net 0 accessions)).
  { unfold df, frame_of_dicts. cbn [rows]. by rewrite length_map. }
  assert (Htable : List.length (zip species genes) = List.length (rows df)).
  { rewrite length_zip. apply frame_column_length in Hs, Hg. lia. }
  match type of Hget with
  | _ = (Ret ?i, _) => exists df, species, genes, (named_lookups (zip species genes)), i
  end.
  split; [done |]. split; [done |]. split; [done |]. split; [done |].
  split; [done |].
  split; [rewrite <- (Forall2_length _ _ _ Hrqs); lia |].
  split; [lia |]. split; [done |]. split; [exact Hget |].
  rewrite Hmain, H2. unfold mbind at 1, M_bind at 1. rewrite Hget.
  unfold mbind at 1, M_bind at 1.
  match goal with
  | |- context [get_gene_data net ?i w2] =>
      destruct (get_gene_data_run net i w2) as [out3 ->]; destruct (batch i _)
  end.
  - unfold mbind at 1, M_bind at 1.
    destruct (frame_merge _ _ _ _) as [o4 w4] eqn:E4.
    apply frame_merge_ends in E4 as (Hs4 & _ & _). cbn [sent] in Hs4.
    destruct o4; unfold mbind, M_bind, print, to_excel; cbn [snd sent];
      by rewrite Hs4, Hsent, <- app_assoc.
  - cbn [snd sent]. by rewrite Hsent, <- app_assoc.
Qed.

(** X15: stage 2 can be run again on its own result.  On a table that has
    the identifier column already, a call that returns adds no column: the
    labels and the number of rows stay, the identifier column holds the
    identifiers collected by this call, one per row (the first
    identifiers of the replies to the lookups of its rows), and every
    other column reads as before. *)
Theorem rerun_replaces_identifier_column
  (r r' : ref) (df : DataFrame) (i : nat) (w w' : world) :
  heap w !! r = Some df ->
  well_formed df ->
  index_of col_ensembl (columns df) = Some i ->
  get_ensembl_gene_ids net r w = (Ret r', w') ->
  exists species genes df',
    frame_column col_scientific df = Ret species /\
    frame_column col_gene df = Ret genes /\
    r' = r /\
    heap w' = <[r := df']> (heap w) /\
    columns df' = columns df /\
    List.length (rows df') = List.length (rows df) /\
    frame_column col_ensembl df'
      = Ret (collected net (List.length (sent w)) (zip species genes)) /\
    List.length (collected net (List.length (sent w)) (zip species genes))
      = List.length (rows df) /\
    forall c, c <> col_ensembl -> frame_column c df' = frame_column c df.
Proof.
  intros Hr Hwf Hc Hrun.
  destruct (frame_column col_scientific df) as [species|e] eqn:Es.
  2:{ rewrite get_ensembl_gene_ids_no_column in Hrun; [done |].
      by rewrite (deref_lookup r df w Hr), Es. }
  destruct (frame_column col_gene df) as [genes|e] eqn:Eg.
  2:{ rewrite get_ensembl_gene_ids_no_column in Hrun; [done |].
      rewrite (deref_lookup r df w Hr), Es, Eg. done. }
  destruct (get_ensembl_gene_ids_run net r df species genes w Hr Es Eg) as [out Hrun'].
  rewrite Hrun' in Hrun. clear Hrun'.
  set (ids := collected net (List.length (sent w)) (zip species genes)) in *.
  assert (Htable : List.length (zip species genes) = List.length (rows df)).
  { rewrite length_zip. apply frame_column_length in Es, Eg. lia. }
  pose proof (collected_no_longer net (List.length (sent w)) (zip species genes)) as Hle1.
  pose proof (named_lookups_no_longer (zip species genes)) as Hle2.
  fold ids in Hle1.
  destruct (frame_assign col_ensembl ids df) as [df'|e] eqn:Ea; [|done].
  injection Hrun as <- <-.
  apply (frame_assign_existing _ i) in Ea as [Hlen ->]; [|done | lia].
  exists species, genes. eexists. split; [done |]. split; [done |]. split; [done |].
  split; [reflexivity |]. cbn [columns rows].
  split; [done |]. split; [rewrite length_zip_with; lia |].
  pose proof (index_of_lookup _ _ _ Hc) as Hi. apply lookup_lt_Some in Hi as Hlt.
  split; [|split; [done |]].
  - unfold frame_column. cbn [columns rows]. rewrite Hc. f_equal.
    by apply (replaced_column_reads_back i (List.length (columns df))).
  - intros c Hne. unfold frame_column. cbn [columns rows].
    destruct (index_of c (columns df)) as [j|] eqn:Ej; [|done]. f_equal.
    apply other_column_is_kept; [|done].
    intros ->. apply index_of_lookup in Ej. congruence.
Qed.

End RunAndRerun.

(** * The final merge *)

Lemma getitem_hashable (v k e : pyval) : py_getitem v k = Ret e -> hashable k = true.
Proof.
  destruct v; simpl; try done; by destruct k.
Qed.

Lemma gene_data_hashable (j id : pyval) (d : pydict) :
  gene_data j id = Ret d -> hashable id = true.
Proof.
  intros H. apply gene_data_annotation in H as (dsc & reg & (e & He & _) & _).
  by apply getitem_hashable in He.
Qed.

Lemma collect_ret {A} (l : list (outcome A)) (data : list A) :
  collect l = Ret data -> Forall2 (fun o d => o = Ret d) l data.
Proof.
  revert data. induction l as [|[a|e] l IH]; intros data; simpl; [| |done].
  - intros [= <-]. constructor.
  - destruct (collect l) as [more|]; simpl; [|done].
    intros [= <-]. constructor; [done | by apply IH].
Qed.

(** The dicts of a batch that succeeded: they have the three labels, their
    first values are the submitted identifiers, and these are hashable. *)
Lemma gene_dicts_of_batch (j : pyval) (ids : list pyval) (data : list pydict) :
  collect (map (gene_data j) ids) = Ret data ->
  Forall (fun d => map fst d = gene_labels) data /\
  map (cell 0) (map (map snd) data) = ids /\
  forallb hashable ids = true.
Proof.
  intros H. apply collect_ret in H. revert data H.
  induction ids as [|id ids IH]; intros data H.
  - apply Forall2_nil_inv_l in H as ->. by repeat split.
  - cbn [map] in H. apply Forall2_cons_inv_l in H as (d & more & Hd & Hmore & ->).
    destruct (IH more Hmore) as (Hk & Hc & Hh).
    pose proof (gene_data_hashable _ _ _ Hd) as Hid.
    apply gene_data_annotation in Hd as (dsc & reg & _ & ->).
    split; [by constructor |]. split.
    + cbn [map]. by rewrite Hc.
    + cbn [forallb]. by rewrite Hid, Hh.
Qed.

Lemma forallb_map {A B} (f : B -> bool) (g : A -> B) (l : list A) :
  forallb (fun x => f (g x)) l = forallb f (map g l).
Proof. induction l as [|x l IH]; simpl; [done | by rewrite IH]. Qed.

(** The merge succeeds when both tables have the key column and all keys
    are hashable. *)
Lemma merge_outer_ok (on : string) (left right : DataFrame) (il ir : nat) :
  index_of on (columns left) = Some il ->
  index_of on (columns right) = Some ir ->
  forallb hashable (map (cell il) (rows left)) = true ->
  forallb hashable (map (cell ir) (rows right)) = true ->
  exists out, merge_outer on left right = Ret out.
Proof.
  intros Hl Hr Hhl Hhr. unfold merge_outer. rewrite Hl, Hr.
  rewrite (forallb_map hashable (cell il)), (forallb_map hashable (cell ir)).
  rewrite Hhl, Hhr. by eexists.
Qed.

Lemma frame_column_inv (c : string) (df : DataFrame) (vs : list pyval) :
  frame_column c df = Ret vs ->
  exists i, index_of c (columns df) = Some i /\ map (cell i) (rows df) = vs.
Proof.
  unfold frame_column. destruct (index_of c (columns df)) as [i|]; [|done].
  intros [= <-]. by exists i.
Qed.

Section FinalMerge.

Variable net : nat -> request -> reply.

(** The merge of the script: the tables it joins and the table it
    exports. *)
Lemma main_merges_stage_tables
  (files : gmap string DataFrame) (r1 r2 r3 : ref) (w1 w2 w3 : world)
  (ids : list pyval) :
  get_protein_information net accessions (initial_world files) = (Ret r1, w1) ->
  get_ensembl_gene_ids net r1 w1 = (Ret r2, w2) ->
  frame_getitem r2 col_ensembl w2 = (Ret ids, w2) ->
  get_gene_data net ids w2 = (Ret r3, w3) ->
  exists left right out w',
    heap w2 !! r2 = Some left /\
    heap w3 !! r2 = Some left /\
    heap w3 !! r3 = Some right /\
    frame_column col_ensembl left = Ret ids /\
    frame_column col_ensembl right = Ret ids /\
    merge_outer col_ensembl left right = Ret out /\
    main net (initial_world files) = (Ret tt, w') /\
    fs w' = <[outfile := out]> files.
Proof.
  intros H1 H2 H3 H4.
  assert (Hmain : main net (initial_world files) =
                  (result ← frame_merge r2 r3 col_ensembl;
                   print (Text ("Writing results to " ++ outfile));;
                   to_excel result outfile) w3).
  { unfold main. unfold mbind at 1, M_bind at 1. rewrite H1.
    unfold mbind at 1, M_bind at 1. rewrite H2.
    unfold mbind at 1, M_bind at 1. rewrite H3.
    unfold mbind at 1, M_bind at 1. rewrite H4. done. }
  destruct (get_protein_information_run net accessions (initial_world files))
    as [out1 Hrun1].
  rewrite Hrun1 in H1. injection H1 as <- <-.
  cbn [initial_world sent heap stdout fs List.length app] in *.
  set (df := frame_of_dicts (resolved net 0 accessions)) in *.
  match type of H2 with
  | get_ensembl_gene_ids _ ?r0 ?w0 = _ =>
      destruct (get_ensembl_gene_ids_trace net r0 r2 df w0 w2 eq_refl
                  (frame_of_dicts_well_formed _)
                  (protein_frame_has_no_identifier net 0 accessions) H2)
        as (species & genes & Hs & Hg & _ & Hids & -> & _ & Hheap2 & Hfs2 & Hget)
  end.
  cbn [sent heap fs List.length] in Hids, Hheap2, Hfs2, Hget.
  rewrite Hget in H3. injection H3 as <-.
  set (ids := collected net 3 (zip species genes)) in *.
  set (left := mkDataFrame (columns df ++ [col_ensembl])
                 (zip_with (fun row id => row ++ [id]) (rows df) ids)) in *.
  assert (Hleft : frame_column col_ensembl left = Ret ids).
  { unfold frame_getitem in Hget. injection Hget as Hget.
    by rewrite (deref_lookup 0%nat left w2) in Hget by (by rewrite Hheap2). }
  (* stage 3 *)
  destruct (get_gene_data_run net ids w2) as [out3 Hrun3]. rewrite Hrun3 in H4.
  destruct (batch ids _) as [data|e] eqn:Eb; [|done].
  injection H4 as <- <-.
  unfold batch in Eb. destruct (body_of _) as [j|]; [|done]. cbn [obind] in Eb.
  destruct (gene_dicts_of_batch j ids data Eb) as (Hkeys & Hcells & Hhash).
  (* the table of stage 1 has rows, so identifiers were submitted *)
  assert (Hne : data <> []).
  { intros ->. cbn [map] in Hcells. rewrite <- Hcells in Hids.
    unfold df in Hs, Hids. rewrite protein_frame in Hs, Hids.
    destruct (resolved net 0 accessions); [by cbn in Hs | by cbn in Hids]. }
  set (right := frame_of_dicts data) in *.
  assert (Hright : right = mkDataFrame gene_labels (map (map snd) data)).
  { apply frame_of_dicts_uniform; [apply gene_labels_NoDup | done | done]. }
  assert (Hrcol : frame_column col_ensembl right = Ret ids).
  { rewrite Hright. unfold frame_column. cbn. by rewrite Hcells. }
  assert (Hmerge : exists out, merge_outer col_ensembl left right = Ret out).
  { destruct (frame_column_inv _ _ _ Hleft) as (il & Eil & Hlc).
    destruct (frame_column_inv _ _ _ Hrcol) as (ir & Eir & Hrc).
    apply (merge_outer_ok _ _ _ il ir); [done | done | |]; by rewrite ?Hlc, ?Hrc. }
  destruct Hmerge as [out Hmerge].
  rewrite Hheap2 in *. cbn [List.length] in *.
  exists left, right, out. eexists.
  split; [done |]. split; [done |]. split; [done |].
  split; [done |]. split; [done |]. split; [done |].
  rewrite Hmain. unfold mbind, M_bind, frame_merge, new_frame, print, to_excel.
  rewrite (deref_lookup 0%nat left), (deref_lookup 1%nat right) by done.
  rewrite Hmerge. cbn [heap sent stdout fs].
  split; [reflexivity |]. cbn [fs]. by rewrite Hfs2.
Qed.

End FinalMerge.

(** C6: the final merge of the script is an outer join of the table of
    stage 2 and the table of stage 3 on the identifier column.  When the
    three stages have returned, [__main__] joins exactly these two tables
    on that column, the join succeeds, and its result is what is written to
    the output file.  The join keeps every row of either table: a row of
    the left table appears joined with each of its partners in the right
    table, or, when it has none, with nulls in the right table's columns; a
    row of the right table appears joined with a partner of the left
    table, or, when it has none, with nulls in the left table's columns
    next to its identifier.  For cross references A, B, C and annotations
    B, C, D the join has the four rows A, B, C, D, with nulls in the
    annotation fields of A and in the protein fields of D. *)
Theorem final_merge_is_outer_join :
  (forall (net : nat -> request -> reply) (files : gmap string DataFrame)
          (r1 r2 r3 : ref) (w1 w2 w3 : world) (ids : list pyval),
     get_protein_information net accessions (initial_world files) = (Ret r1, w1) ->
     get_ensembl_gene_ids net r1 w1 = (Ret r2, w2) ->
     frame_getitem r2 col_ensembl w2 = (Ret ids, w2) ->
     get_gene_data net ids w2 = (Ret r3, w3) ->
     exists left right out w',
       heap w2 !! r2 = Some left /\
       heap w3 !! r2 = Some left /\
       heap w3 !! r3 = Some right /\
       frame_column col_ensembl left = Ret ids /\
       frame_column col_ensembl right = Ret ids /\
       merge_outer col_ensembl left right = Ret out /\
       main net (initial_world files) = (Ret tt, w') /\
       fs w' = <[outfile := out]> files) /\
  (forall (on : string) (left right out : DataFrame),
     merge_outer on left right = Ret out ->
     exists il ir,
       index_of on (columns left) = Some il /\
       index_of on (columns right) = Some ir /\
       (forall l, l ∈ rows left ->
          (exists r, r ∈ rows right /\ key_eqb (cell il l) (cell ir r) = true /\
                     l ++ drop_at ir r ∈ rows out) \/
          ((forall r, r ∈ rows right -> key_eqb (cell il l) (cell ir r) = false) /\
           l ++ nulls (drop_at ir (columns right)) ∈ rows out)) /\
       (forall r, r ∈ rows right ->
          (exists l, l ∈ rows left /\ key_eqb (cell il l) (cell ir r) = true /\
                     l ++ drop_at ir r ∈ rows out) \/
          ((forall l, l ∈ rows left -> key_eqb (cell il l) (cell ir r) = false) /\
           <[il := cell ir r]> (nulls (columns left)) ++ drop_at ir r ∈ rows out))) /\
  merge_outer col_ensembl crossref_ABC annotation_BCD =
    Ret (mkDataFrame (protein_labels ++ [col_ensembl; col_description; col_region])
           [crossref_row "P1" "A" ++ [PNaN; PNaN];
            crossref_row "P2" "B" ++ [PStr "gene B"; PStr "11"];
            crossref_row "P3" "C" ++ [PStr "gene C"; PStr "11"];
            [PNaN; PNaN; PNaN; PNaN; PNaN; PNaN; PStr "D"; PStr "gene D"; PStr "11"]]).
Proof.
  split; [|split; [|reflexivity]].
  - intros net files r1 r2 r3 w1 w2 w3 ids H1 H2 H3 H4.
    exact (main_merges_stage_tables net files r1 r2 r3 w1 w2 w3 ids H1 H2 H3 H4).
  - apply merge_outer_keeps_rows.
Qed.

(** * The revised claims on sample runs *)

(** C8, as stated, fails: the table has one row, its organism cell is a
    missing value, and no lookup is sent for it. *)
Lemma nameless_row_gets_no_lookup :
  List.length (rows (deref 0%nat nameless_world)) = 1%nat /\
  frame_column col_scientific (deref 0%nat nameless_world) = Ret [PNaN] /\
  sent (snd (get_ensembl_gene_ids sample_net 0%nat nameless_world)) = [] /\
  ~ (List.length (sent (snd (get_ensembl_gene_ids sample_net 0%nat nameless_world)))
     = List.length (rows (deref 0%nat nameless_world))).
Proof. repeat split; try reflexivity. vm_compute. discriminate. Qed.

Lemma one_lookup_per_named_row_witness :
  heap one_protein_world !! 0%nat = Some one_protein /\
  frame_column col_scientific one_protein = Ret [PStr "Homo sapiens"] /\
  frame_column col_gene one_protein = Ret [PStr "TP53"] /\
  exists w',
    get_ensembl_gene_ids sample_net 0%nat one_protein_world = (Ret 0%nat, w') /\
    sent w' = [GetXrefsSymbol "homo sapiens" (PStr "TP53")] /\
    heap w' = [mkDataFrame (protein_labels ++ [col_ensembl])
                 [[PStr "P04637"; PStr "Cellular tumor antigen p53"; PStr "TP53";
                   PStr "Homo sapiens"; PStr "Human"; PInt 43653; PStr "ENSGTP53"]]].
Proof.
  split; [reflexivity |]. split; [reflexivity |]. split; [reflexivity |].
  destruct (proj1 (proj1 (one_lookup_per_named_row sample_net 0%nat one_protein
                            one_protein_world eq_refl)
                     [PStr "Homo sapiens"] [PStr "TP53"] eq_refl eq_refl))
    as (w' & Hrun & Hsent & Hheap).
  exists w'. split; [exact Hrun |]. split; [exact Hsent | exact Hheap].
Defined.

Lemma final_merge_is_outer_join_witness :
  get_protein_information sample_net accessions (initial_world ∅)
    = (Ret 0%nat, sample_w1) /\
  get_ensembl_gene_ids sample_net 0%nat sample_w1 = (Ret 0%nat, sample_w2) /\
  frame_getitem 0%nat col_ensembl sample_w2 = (Ret sample_run_ids, sample_w2) /\
  get_gene_data sample_net sample_run_ids sample_w2 = (Ret 1%nat, sample_w3) /\
  exists left right out w',
    heap sample_w2 !! 0%nat = Some left /\
    heap sample_w3 !! 0%nat = Some left /\
    heap sample_w3 !! 1%nat = Some right /\
    frame_column col_ensembl left = Ret sample_run_ids /\
    frame_column col_ensembl right = Ret sample_run_ids /\
    merge_outer col_ensembl left right = Ret out /\
    main sample_net (initial_world ∅) = (Ret tt, w') /\
    fs w' = <[outfile := out]> ∅.
Proof.
  assert (H1 : get_protein_information sample_net accessions (initial_world ∅)
               = (Ret 0%nat, sample_w1)) by (vm_compute; reflexivity).
  assert (H2 : get_ensembl_gene_ids sample_net 0%nat sample_w1
               = (Ret 0%nat, sample_w2)) by (vm_compute; reflexivity).
  assert (H3 : frame_getitem 0%nat col_ensembl sample_w2
               = (Ret sample_run_ids, sample_w2)) by (vm_compute; reflexivity).
  assert (H4 : get_gene_data sample_net sample_run_ids sample_w2
               = (Ret 1%nat, sample_w3)) by (vm_compute; reflexivity).
  repeat (split; [assumption |]).
  exact (proj1 final_merge_is_outer_join sample_net ∅ 0%nat 0%nat 1%nat
           sample_w1 sample_w2 sample_w3 sample_run_ids H1 H2 H3 H4).
Defined.

Lemma run_request_trace_witness :
  get_protein_information sample_net accessions (initial_world ∅)
    = (Ret 0%nat, sample_w1) /\
  get_ensembl_gene_ids sample_net 0%nat sample_w1 = (Ret 0%nat, sample_w2) /\
  exists df species genes rqs ids,
    heap sample_w1 !! 0%nat = Some df /\
    frame_column col_scientific df = Ret species /\
    frame_column col_gene df = Ret genes /\
    List.length (zip species genes) = List.length (rows df) /\
    Forall2 (fun row rq => exists s, fst row = PStr s /\
                                     rq = GetXrefsSymbol (lower s) (snd row))
      (zip species genes) rqs /\
    List.length rqs = List.length (resolved sample_net 0 accessions) /\
    List.length ids = List.length (resolved sample_net 0 accessions) /\
    ids = collected sample_net (List.length (sent sample_w1)) (zip species genes) /\
    frame_getitem 0%nat col_ensembl sample_w2 = (Ret ids, sample_w2) /\
    sent (snd (main sample_net (initial_world ∅)))
      = map GetProtein accessions ++ rqs ++ [PostLookupId ids].
Proof.
  assert (H1 : get_protein_information sample_net accessions (initial_world ∅)
               = (Ret 0%nat, sample_w1)) by (vm_compute; reflexivity).
  assert (H2 : get_ensembl_gene_ids sample_net 0%nat sample_w1
               = (Ret 0%nat, sample_w2)) by (vm_compute; reflexivity).
  split; [exact H1 |]. split; [exact H2 |].
  exact (run_request_trace sample_net ∅ 0%nat 0%nat sample_w1 sample_w2 H1 H2).
Defined.

Lemma rerun_replaces_identifier_column_witness :
  index_of col_ensembl (columns crossref_ABC) = Some 6%nat /\
  get_ensembl_gene_ids sample_net 0%nat crossref_world
    = (Ret 0%nat, snd (get_ensembl_gene_ids sample_net 0%nat crossref_world)) /\
  exists species genes df',
    frame_column col_scientific crossref_ABC = Ret species /\
    frame_column col_gene crossref_ABC = Ret genes /\
    0%nat = 0%nat /\
    heap (snd (get_ensembl_gene_ids sample_net 0%nat crossref_world))
      = <[0%nat := df']> [crossref_ABC] /\
    columns df' = columns crossref_ABC /\
    List.length (rows df') = 3%nat /\
    frame_column col_ensembl df' = Ret (collected sample_net 0 (zip species genes)) /\
    List.length (collected sample_net 0 (zip species genes)) = 3%nat /\
    forall c, c <> col_ensembl -> frame_column c df' = frame_column c crossref_ABC.
Proof.
  assert (H : get_ensembl_gene_ids sample_net 0%nat crossref_world
              = (Ret 0%nat, snd (get_ensembl_gene_ids sample_net 0%nat crossref_world)))
    by (vm_compute; reflexivity).
  split; [reflexivity |]. split; [exact H |].
  exact (rerun_replaces_identifier_column sample_net 0%nat 0%nat crossref_ABC 6%nat
           crossref_world _ eq_refl well_formed_crossref_ABC eq_refl H).
Defined.
